(** * Joint template generators: box joints and dovetails

    A shallow embedding of the three programs of the repository
    ([Box-Joint.py], [Dovetail-Joint.py], [Joint-Template-Generator.py])
    and the properties of their layout engines.

    Python [float] is IEEE-754 binary64.  The layout code is written once,
    over an interface [PyNum] of the numeric operations the programs use,
    and is run at two instances:
    - [F64.num]: binary64 arithmetic (Stdlib's executable [SpecFloat],
      precision 53, round to nearest even), what the interpreter computes;
    - [Exact.num]: exact rationals, the idealisation in which the algebraic
      laws of the layout are stated.

    The file has four parts: the programs, the vocabulary of the
    statements, the properties of the layout engines with their proofs,
    and further properties of the handlers, of the box image and of the
    vector documents. *)

From Stdlib Require Import ZArith QArith Qround Qminmax Lia Lqa Bool List.
From Stdlib Require Import Ascii String.
From Stdlib Require Import Floats.SpecFloat.
Import ListNotations.

Set Implicit Arguments.
Local Open Scope Z_scope.

(** ** Python exceptions and results *)

(** The exceptions the programs can meet.  Every handler of the programs
    distinguishes [ValueError] from the rest. *)
Inductive exn : Type :=
| ValueError_float (text : string)     (* float(text): not a number *)
| ValueError_int (text : string)       (* int(text): not an integer *)
| ValueError_msg (msg : string)        (* raise ValueError(msg) *)
| ValueError_nan_to_int                (* round(nan) *)
| OverflowError_inf_to_int             (* round(inf) *)
| OverflowError_int_too_large          (* float(n) for |n| beyond the range *)
| ZeroDivisionError                    (* x / 0.0 *)
| IndexError                           (* parts[1] of a one-element list *)
| RuntimeError (msg : string).

Definition is_ValueError (e : exn) : bool :=
  match e with
  | ValueError_float _ | ValueError_int _ | ValueError_msg _
  | ValueError_nan_to_int => true
  | _ => false
  end.

Inductive res (A : Type) : Type :=
| Ok (a : A)
| Err (e : exn).
Arguments Ok {A} a.
Arguments Err {A} e.

Definition rbind {A B : Type} (r : res A) (k : A -> res B) : res B :=
  match r with
  | Ok a => k a
  | Err e => Err e
  end.

Declare Scope res_scope.
Delimit Scope res_scope with res.
Notation "x <- r ;; k" := (rbind r (fun x => k))
  (at level 61, r at next level, right associativity) : res_scope.
Local Open Scope res_scope.

Fixpoint mapM {A B : Type} (f : A -> res B) (l : list A) : res (list B) :=
  match l with
  | [] => Ok []
  | a :: l' => b <- f a ;; bs <- mapM f l' ;; Ok (b :: bs)
  end.

(** ** The numeric interface *)

(** What the programs do with numbers.  [of_int] is the implicit conversion
    of a Python [int] operand in mixed arithmetic; [lit m e] is the value of
    the decimal literal [m]e[e] of the program text or of an input string;
    [fdiv] raises on a zero divisor, as Python's [/] does; [round_int] is
    [int(round(x))]; [int_leb n x] is the comparison [n <= x] of an [int]
    with a [float], which Python decides exactly. *)
Class PyNum (F : Type) : Type := {
  of_int : Z -> res F;
  lit : Z -> Z -> F;
  special : bool -> bool -> option F;   (* sign, is_nan: float('inf'), float('nan') *)
  fadd : F -> F -> F;
  fsub : F -> F -> F;
  fmul : F -> F -> F;
  fneg : F -> F;
  fdiv : F -> F -> res F;
  feqb : F -> F -> bool;
  fltb : F -> F -> bool;
  fleb : F -> F -> bool;
  int_leb : Z -> F -> bool;
  round_int : F -> res Z
}.

(** ** Binary64 *)

Module F64.

Definition prec : Z := 53.
Definition emax : Z := 1024.

Definition float : Type := spec_float.

Definition is_zero (x : float) : bool :=
  match x with S754_zero _ => true | _ => false end.

(** [int] to [float]: correctly rounded, [OverflowError] beyond the range. *)
Definition of_int (n : Z) : res float :=
  match binary_normalize prec emax n 0 false with
  | S754_infinity _ => Err OverflowError_int_too_large
  | x => Ok x
  end.

(** The decimal [m * 10^e], correctly rounded: an integer is rounded as it
    is, a fraction by one correctly rounded division of two integers. *)
Definition lit (m e : Z) : float :=
  match m with
  | Z0 => S754_zero false
  | Zpos p =>
      match e with
      | Zneg k => SFdiv prec emax (S754_finite false p 0)
                    (S754_finite false (Pos.pow 10 k) 0)
      | _ => binary_normalize prec emax (m * 10 ^ e) 0 false
      end
  | Zneg p =>
      match e with
      | Zneg k => SFdiv prec emax (S754_finite true p 0)
                    (S754_finite false (Pos.pow 10 k) 0)
      | _ => binary_normalize prec emax (m * 10 ^ e) 0 false
      end
  end.

Definition special (sign is_nan : bool) : option float :=
  Some (if is_nan then S754_nan else S754_infinity sign).

Definition fdiv (x y : float) : res float :=
  if is_zero y then Err ZeroDivisionError else Ok (SFdiv prec emax x y).

(** [n <= x], decided on the exact values. *)
Definition int_leb (n : Z) (x : float) : bool :=
  match x with
  | S754_nan => false
  | S754_infinity s => negb s
  | S754_zero _ => n <=? 0
  | S754_finite s m (Zneg k) => n * Zpos (Pos.pow 2 k) <=? cond_Zopp s (Zpos m)
  | S754_finite s m e => n <=? cond_Zopp s (Zpos m) * 2 ^ e
  end.

(** [int(round(x))]: the nearest integer, ties to the even one. *)
Definition round_int (x : float) : res Z :=
  match x with
  | S754_nan => Err ValueError_nan_to_int
  | S754_infinity _ => Err OverflowError_inf_to_int
  | S754_zero _ => Ok 0
  | S754_finite s m (Zneg k) =>
      let d := Zpos (Pos.pow 2 k) in
      let q := Zpos m / d in
      let r := Zpos m mod d in
      Ok (cond_Zopp s
            match 2 * r ?= d with
            | Lt => q
            | Gt => q + 1
            | Eq => if Z.even q then q else q + 1
            end)
  | S754_finite s m e => Ok (cond_Zopp s (Zpos m * 2 ^ e))
  end.

#[global] Instance num : PyNum float := {
  of_int := of_int;
  lit := lit;
  special := special;
  fadd := SFadd prec emax;
  fsub := SFsub prec emax;
  fmul := SFmul prec emax;
  fneg := SFopp;
  fdiv := fdiv;
  feqb := SFeqb;
  fltb := SFltb;
  fleb := SFleb;
  int_leb := int_leb;
  round_int := round_int
}.

End F64.

(** ** Exact rationals *)

Module Exact.

Definition of_int (n : Z) : res Q := Ok (inject_Z n).

Definition lit (m e : Z) : Q :=
  match e with
  | Zneg k => Qmake m (Pos.pow 10 k)
  | _ => inject_Z (m * 10 ^ e)
  end.

(** The rationals have neither infinities nor a NaN. *)
Definition special (sign is_nan : bool) : option Q := None.

Definition fdiv (x y : Q) : res Q :=
  if Qeq_bool y 0 then Err ZeroDivisionError else Ok (x / y)%Q.

Definition fltb (x y : Q) : bool := negb (Qle_bool y x).

Definition int_leb (n : Z) (x : Q) : bool := Qle_bool (inject_Z n) x.

Definition round_int (x : Q) : res Z :=
  let n := Qfloor x in
  Ok match (x - inject_Z n ?= 1 # 2)%Q with
     | Lt => n
     | Gt => n + 1
     | Eq => if Z.even n then n else n + 1
     end.

#[global] Instance num : PyNum Q := {
  of_int := of_int;
  lit := lit;
  special := special;
  fadd := Qplus;
  fsub := Qminus;
  fmul := Qmult;
  fneg := Qopp;
  fdiv := fdiv;
  feqb := Qeq_bool;
  fltb := fltb;
  fleb := Qle_bool;
  int_leb := int_leb;
  round_int := round_int
}.

End Exact.

(** ** Strings: [str.strip], [in], [str.split], [float], [int] *)

Local Open Scope string_scope.
Local Open Scope Z_scope.

(** ASCII white space, as [str.strip] and the number parsers skip it. *)
Definition is_space (c : ascii) : bool :=
  let n := Z.of_N (N_of_ascii c) in
  ((9 <=? n) && (n <=? 13)) || ((28 <=? n) && (n <=? 32)).

Fixpoint lstrip (s : string) : string :=
  match s with
  | String c s' => if is_space c then lstrip s' else s
  | EmptyString => s
  end.

Fixpoint string_rev_onto (s acc : string) : string :=
  match s with
  | String c s' => string_rev_onto s' (String c acc)
  | EmptyString => acc
  end.

Definition string_rev (s : string) : string := string_rev_onto s "".

Definition strip (s : string) : string :=
  string_rev (lstrip (string_rev (lstrip s))).

(** [c in s] for a one-character [c]. *)
Fixpoint contains (c : ascii) (s : string) : bool :=
  match s with
  | String a s' => Ascii.eqb a c || contains c s'
  | EmptyString => false
  end.

(** [s.split(sep)] for a one-character [sep]: never empty. *)
Fixpoint split (sep : ascii) (s : string) : list string :=
  match s with
  | EmptyString => [""]
  | String a s' =>
      if Ascii.eqb a sep then "" :: split sep s'
      else match split sep s' with
           | p :: ps => String a p :: ps
           | [] => [String a ""]
           end
  end.

Definition digit_of (c : ascii) : option Z :=
  let n := Z.of_N (N_of_ascii c) in
  if (48 <=? n) && (n <=? 57) then Some (n - 48) else None.

(** The rest of a [digitpart ::= digit (["_"] digit)*] after its first
    digit: the value read so far, the number of digits, what is left. *)
Fixpoint digits_tail (acc cnt : Z) (s : string) : Z * Z * string :=
  match s with
  | String c s' =>
      match digit_of c with
      | Some d => digits_tail (10 * acc + d) (cnt + 1) s'
      | None =>
          if Ascii.eqb c "_" then
            match s' with
            | String c2 s'' =>
                match digit_of c2 with
                | Some d => digits_tail (10 * acc + d) (cnt + 1) s''
                | None => (acc, cnt, s)
                end
            | EmptyString => (acc, cnt, s)
            end
          else (acc, cnt, s)
      end
  | EmptyString => (acc, cnt, s)
  end.

Definition digitpart (acc : Z) (s : string) : option (Z * Z * string) :=
  match s with
  | String c s' =>
      match digit_of c with
      | Some d => Some (digits_tail (10 * acc + d) 1 s')
      | None => None
      end
  | EmptyString => None
  end.

(** An optional sign: [true] for "-". *)
Definition read_sign (s : string) : bool * string :=
  match s with
  | String "-" s' => (true, s')
  | String "+" s' => (false, s')
  | _ => (false, s)
  end.

Definition lower_ascii (c : ascii) : ascii :=
  let n := N_of_ascii c in
  if ((65 <=? n) && (n <=? 90))%N then ascii_of_N (n + 32) else c.

Fixpoint lower (s : string) : string :=
  match s with
  | String c s' => String (lower_ascii c) (lower s')
  | EmptyString => s
  end.

(** [number ::= [digitpart] "." digitpart | digitpart ["."]]: the digits
    read as one integer, and how many of them follow the point. *)
Definition read_number (s : string) : option (Z * Z * string) :=
  match digitpart 0 s with
  | Some (m, _, String "." s') =>
      match digitpart m s' with
      | Some (m', k, s'') => Some (m', k, s'')
      | None => Some (m, 0, s')
      end
  | Some (m, _, s') => Some (m, 0, s')
  | None =>
      match s with
      | String "." s' => digitpart 0 s'
      | _ => None
      end
  end.

(** [exponent ::= ("e" | "E") [sign] digitpart], when there is one. *)
Definition read_exponent (s : string) : option (Z * string) :=
  match s with
  | String c s' =>
      if Ascii.eqb (lower_ascii c) "e" then
        let (neg, s1) := read_sign s' in
        match digitpart 0 s1 with
        | Some (x, _, s2) => Some (if neg then - x else x, s2)
        | None => None
        end
      else Some (0, s)
  | EmptyString => Some (0, s)
  end.

Section Parsers.
Context {F : Type} {num : PyNum F}.

(** [float(text)] on the grammar of the language reference (ASCII). *)
Definition py_float (text : string) : res F :=
  let bad : res F := Err (ValueError_float text) in
  let (neg, body) := read_sign (strip text) in
  let signed (x : F) := if neg then fneg x else x in
  let name := lower body in
  if String.eqb name "inf" || String.eqb name "infinity" then
    match special neg false with Some x => Ok x | None => bad end
  else if String.eqb name "nan" then
    match special neg true with Some x => Ok x | None => bad end
  else
    match read_number body with
    | Some (m, k, rest) =>
        match read_exponent rest with
        | Some (x, EmptyString) => Ok (signed (lit m (x - k)))
        | _ => bad
        end
    | None => bad
    end.

(** [int(text)], base ten. *)
Definition py_int (text : string) : res Z :=
  let (neg, body) := read_sign (strip text) in
  match digitpart 0 body with
  | Some (n, _, EmptyString) => Ok (if neg then - n else n)
  | _ => Err (ValueError_int text)
  end.

End Parsers.

Local Open Scope list_scope.

(** ** Divergence *)

(** A computation that may raise and may not terminate: [None] is a run that
    is still going when the fuel is spent. *)
Definition run (A : Type) : Type := option (res A).

Definition run_bind {A B : Type} (m : run A) (k : A -> run B) : run B :=
  match m with
  | Some (Ok a) => k a
  | Some (Err e) => Some (Err e)
  | None => None
  end.

Definition lift {A : Type} (r : res A) : run A := Some r.

Notation "x <-- m ;; k" := (run_bind m (fun x => k))
  (at level 61, m at next level, right associativity) : res_scope.

(** [while cond(s): s = body(s)] *)
Section While.
Context {S : Type} (cond : S -> bool) (body : S -> res S).

Fixpoint while (fuel : nat) (s : S) : run S :=
  if cond s then
    match fuel with
    | O => None
    | Datatypes.S n =>
        match body s with
        | Ok s' => while n s'
        | Err e => Some (Err e)
        end
    end
  else Some (Ok s).

(** The states in which the body was entered, in order. *)
Fixpoint iterations (fuel : nat) (s : S) : list S :=
  if cond s then
    match fuel with
    | O => []
    | Datatypes.S n =>
        s :: match body s with
             | Ok s' => iterations n s'
             | Err _ => []
             end
    end
  else [].

End While.

(** [range(n)] *)
Definition range (n : Z) : list Z := map Z.of_nat (seq 0 (Z.to_nat n)).

(** ** The canvas *)

Section Canvas.
Variable F : Type.

(** The texts the programs format, by what they print. *)
Inductive label : Type :=
| TitleBox (board_width_mm finger_width_mm : F)
| TitleDovetail (board_width_mm : F) (num_tails : Z) (ratio_val : F)
| InfoPrint (dpi : Z)
| TickLabel (mm_val : Z).

Inductive font : Type := font_title | font_small.

(** The calls on [ImageDraw]; everything is drawn in black. *)
Inductive shape : Type :=
| Outline (x0 y0 x1 y1 : Z)            (* rectangle(outline="black", width=1) *)
| FilledRect (x0 y0 x1 y1 : Z)         (* rectangle(fill="black") *)
| Polygon (points : list (F * Z))      (* polygon(fill="black") *)
| Line (x0 y0 x1 y1 : Z)
| Text (x y : Z) (l : label) (f : font).

(** [Image.new("RGB", (width, height), "white")] and what was drawn on
    it, in drawing order. *)
Record image : Type := {
  img_width : Z;
  img_height : Z;
  drawn : list shape
}.

(** The elements of the vector document, in millimetres. *)
Inductive svg_elem : Type :=
| SvgRect (x y width height : F)
| SvgPolygon (points : list (F * F)).

Record svg : Type := {
  svg_width : F;
  svg_height : F;
  svg_elems : list svg_elem
}.

End Canvas.

Arguments TitleBox {F}.
Arguments TitleDovetail {F}.
Arguments InfoPrint {F}.
Arguments TickLabel {F}.
Arguments Outline {F}.
Arguments FilledRect {F}.
Arguments Polygon {F}.
Arguments Line {F}.
Arguments Text {F}.
Arguments SvgRect {F}.
Arguments SvgPolygon {F}.

(** ** Geometry shared by the three programs *)

Section Geometry.
Context {F : Type} {num : PyNum F}.

(** [mm_to_px = dpi / 25.4] *)
Definition mm_to_px_of (dpi : Z) : res F :=
  d <- of_int dpi ;; fdiv d (lit 254 (-1)).

(** [int(round(mm * mm_to_px))] *)
Definition to_px (mm mm_to_px : F) : res Z := round_int (fmul mm mm_to_px).

(** Python's [min(a, b)]: [b] when [b < a], else [a]. *)
Definition py_min (a b : F) : F := if fltb b a then b else a.

(** *** The finger loop ([Box-Joint.py] 77-87, [generate_box_image] 57-67) *)

Record finger_state : Type := {
  fs_x : Z;
  fs_draw_finger : bool;
  fs_drawn : list (shape F)
}.

Definition finger_cond (end_x : Z) (s : finger_state) : bool :=
  fs_x s <? end_x.

Definition finger_body (finger_width_px end_x top_y bottom_y : Z)
    (s : finger_state) : res finger_state :=
  let x := fs_x s in
  let seg_width := Z.min finger_width_px (end_x - x) in
  Ok {| fs_x := x + seg_width;
        fs_draw_finger := negb (fs_draw_finger s);
        fs_drawn :=
          if fs_draw_finger s && (0 <? seg_width)
          then fs_drawn s ++ [FilledRect x top_y (x + seg_width) bottom_y]
          else fs_drawn s |}.

Definition draw_fingers (fuel : nat)
    (finger_width_px left_x right_x top_y bottom_y : Z)
    (start_with_finger : bool) (canvas : list (shape F))
    : run (list (shape F)) :=
  s <-- while (finger_cond right_x)
          (finger_body finger_width_px right_x top_y bottom_y) fuel
          {| fs_x := left_x; fs_draw_finger := start_with_finger;
             fs_drawn := canvas |} ;;
  Some (Ok (fs_drawn s)).

(** A segment of the loop: where it starts, its width, solid or gap. *)
Record segment : Type := {
  seg_x : Z;
  seg_width : Z;
  seg_solid : bool
}.

Definition segment_of (finger_width_px end_x : Z) (s : finger_state)
    : segment :=
  {| seg_x := fs_x s;
     seg_width := Z.min finger_width_px (end_x - fs_x s);
     seg_solid := fs_draw_finger s |}.

(** The segments of the first [fuel] turns of the loop. *)
Definition box_segments (fuel : nat)
    (finger_width_px left_x right_x top_y bottom_y : Z)
    (start_with_finger : bool) : list segment :=
  map (segment_of finger_width_px right_x)
    (iterations (finger_cond right_x)
       (finger_body finger_width_px right_x top_y bottom_y) fuel
       {| fs_x := left_x; fs_draw_finger := start_with_finger;
          fs_drawn := [] |}).

(** *** The ruler ([Box-Joint.py] 89-113, [Dovetail-Joint.py] 138-160,
    [generate_box_image] 69-82, [generate_dovetail_image] 175-188) *)

Record ruler_state : Type := {
  rs_mm_val : Z;
  rs_drawn : list (shape F)
}.

(** [mm_val <= ruler_length_mm + 0.01] *)
Definition ruler_cond (ruler_length_mm : F) (s : ruler_state) : bool :=
  int_leb (rs_mm_val s) (fadd ruler_length_mm (lit 1 (-2))).

(** The tick and the label of [mm_val]. *)
Definition tick_marks (mm_to_px : F) (left_x ruler_top_y mm_val : Z)
    : res (list (shape F)) :=
  m <- of_int mm_val ;;
  r <- round_int (fmul m mm_to_px) ;;
  let px := left_x + r in
  Ok [Line px ruler_top_y px (ruler_top_y + 6);
      Text (px - 10) (ruler_top_y + 8) (TickLabel mm_val) font_small].

Definition ruler_body (mm_to_px : F) (left_x ruler_top_y : Z)
    (s : ruler_state) : res ruler_state :=
  let mm_val := rs_mm_val s in
  marks <- tick_marks mm_to_px left_x ruler_top_y mm_val ;;
  Ok {| rs_mm_val := mm_val + 10; rs_drawn := rs_drawn s ++ marks |}.

(** [min(board_width_mm, 200)] *)
Definition ruler_length (board_width_mm : F) : F :=
  py_min board_width_mm (lit 200 0).

Definition draw_ruler (fuel : nat) (board_width_mm mm_to_px : F)
    (left_x bottom_y : Z) (canvas : list (shape F))
    : run (list (shape F)) :=
  let ruler_top_y := bottom_y + 10 in
  let ruler_length_mm := ruler_length board_width_mm in
  ruler_length_px <-- lift (to_px ruler_length_mm mm_to_px) ;;
  let canvas :=
    canvas ++ [Line left_x ruler_top_y (left_x + ruler_length_px) ruler_top_y] in
  s <-- while (ruler_cond ruler_length_mm)
          (ruler_body mm_to_px left_x ruler_top_y) fuel
          {| rs_mm_val := 0; rs_drawn := canvas |} ;;
  Some (Ok (rs_drawn s)).


(** *** The tails ([Dovetail-Joint.py] 97-134, [generate_dovetail_image]
    142-172, [save_dovetail_svg] 234-271) *)

(** [total_units = num_tails * tail_units + (num_tails + 1) * pin_units] *)
Definition total_units (num_tails : Z) : res F :=
  let tail_units := lit 10 (-1) in
  let pin_units := lit 5 (-1) in
  n <- of_int num_tails ;;
  n1 <- of_int (num_tails + 1) ;;
  Ok (fadd (fmul n tail_units) (fmul n1 pin_units)).

Record layout : Type := {
  tail_top_width : F;
  pin_width : F;
  offset : F
}.

(** The widths of a tail and of a pin and the inset of the bottom edge,
    in the unit of [width] and [height].  The raster programs pass pixel
    counts, which are converted where they are divided. *)
Definition dovetail_layout (width height : res F) (num_tails : Z)
    (ratio_val : F) : res layout :=
  let tail_units := lit 10 (-1) in
  let pin_units := lit 5 (-1) in
  total <- total_units num_tails ;;
  w <- width ;;
  unit <- fdiv w total ;;
  let tail_top_width := fmul tail_units unit in
  let pin_width := fmul pin_units unit in
  h <- height ;;
  offset <- fdiv h ratio_val ;;
  Ok {| tail_top_width := tail_top_width; pin_width := pin_width;
        offset := offset |}.

(** The four corners of a tail: left top, right top, right bottom, left
    bottom. *)
Record tail : Type := {
  left_top : F;
  right_top : F;
  right_bottom : F;
  left_bottom : F
}.

(** The degenerate-tail guard.  [Dovetail-Joint.py] 124-127 stores the
    midpoint in [tail_left_bottom_x] and copies it; the other two name it
    [mid]. *)
Definition clamp_bottom (left_bottom right_bottom : F) : res (F * F) :=
  if fleb right_bottom left_bottom then
    mid <- fdiv (fadd left_bottom right_bottom) (lit 20 (-1)) ;;
    Ok (mid, mid)
  else Ok (left_bottom, right_bottom).

(** One turn of [for i in range(num_tails)]. *)
Definition tail_at (l : layout) (tail_start_x : F) (i : Z) : res tail :=
  k <- of_int i ;;
  let left_top :=
    fadd tail_start_x (fmul k (fadd (tail_top_width l) (pin_width l))) in
  let right_top := fadd left_top (tail_top_width l) in
  let left_bottom := fadd left_top (offset l) in
  let right_bottom := fsub right_top (offset l) in
  b <- clamp_bottom left_bottom right_bottom ;;
  Ok {| left_top := left_top; right_top := right_top;
        right_bottom := snd b; left_bottom := fst b |}.

Definition tails (l : layout) (tail_start_x : F) (num_tails : Z)
    : res (list tail) :=
  mapM (tail_at l tail_start_x) (range num_tails).

End Geometry.

Arguments finger_state F : clear implicits.
Arguments ruler_state F : clear implicits.
Arguments layout F : clear implicits.
Arguments tail F : clear implicits.

(** ** Events of a run of a program *)

Section Events.
Variable F : Type.

Inductive message : Type :=
| Msg (text : string)
| Str (e : exn)                        (* str(ve) *)
| ErrorOccurred (e : exn).             (* f"An error occurred:\n{e}" *)

Inductive docx_item : Type :=
| DocHeading (text : string)
| DocType (jt_label : string)
| DocBoardWidth (board_width_mm : F)
| DocHeight (board_height_mm : F)
| DocFingerWidth (finger_width_mm : F)
| DocStartWithFinger (start_with_finger : bool)
| DocTails (num_tails : Z)
| DocRatio (ratio_val : F)
| DocPicture (path : string) (width_mm : F).

Inductive file_content : Type :=
| PNG (img : image F)
| PDF (img : image F) (resolution : Z)
| SVG (doc : svg F)
| DOCX (doc : list docx_item).

Inductive event : Type :=
| ShowError (title : string) (m : message)
| ShowInfo (title : string) (lines : list string)
| Save (path : string) (c : file_content)
| StartFile (path : string).

(** How the body of a handler ends when it does not run to its end. *)
Inductive stop : Type :=
| Raise (e : exn)
| Return
| Hang.

(** A handler body: what it has done, and a value or how it stopped. *)
Definition gui (A : Type) : Type := list event * (A + stop).

Definition gret {A : Type} (a : A) : gui A := ([], inl a).

Definition gbind {A B : Type} (m : gui A) (k : A -> gui B) : gui B :=
  match m with
  | (tr, inl a) => let (tr', r) := k a in (tr ++ tr', r)
  | (tr, inr s) => (tr, inr s)
  end.

Definition emit (e : event) : gui unit := ([e], inl tt).

Definition stop_with {A : Type} (s : stop) : gui A := ([], inr s).

Definition of_res {A : Type} (r : res A) : gui A :=
  match r with
  | Ok a => gret a
  | Err e => stop_with (Raise e)
  end.

Definition of_run {A : Type} (r : run A) : gui A :=
  match r with
  | Some r => of_res r
  | None => stop_with Hang
  end.

(** [try: body  except ValueError ...: on_value  except Exception: on_other] *)
Definition try_except (body : gui unit) (on_value on_other : exn -> event)
    : option (list event) :=
  match body with
  | (tr, inl _) => Some tr
  | (tr, inr Return) => Some tr
  | (tr, inr (Raise e)) =>
      Some (tr ++ [if is_ValueError e then on_value e else on_other e])
  | (_, inr Hang) => None
  end.

End Events.

Arguments DocHeading {F}.
Arguments DocType {F}.
Arguments DocBoardWidth {F}.
Arguments DocHeight {F}.
Arguments DocFingerWidth {F}.
Arguments DocStartWithFinger {F}.
Arguments DocTails {F}.
Arguments DocRatio {F}.
Arguments DocPicture {F}.
Arguments PNG {F}.
Arguments PDF {F}.
Arguments SVG {F}.
Arguments DOCX {F}.
Arguments ShowError {F}.
Arguments ShowInfo {F}.
Arguments Save {F}.
Arguments StartFile {F}.
Arguments gret {F A}.
Arguments gbind {F A B}.
Arguments emit {F}.
Arguments stop_with {F A}.
Arguments of_res {F A}.
Arguments of_run {F A}.
Arguments try_except {F}.

Notation "x <~ m ;; k" := (gbind m (fun x => k))
  (at level 61, m at next level, right associativity) : res_scope.
Notation "m ;;; k" := (gbind m (fun _ => k))
  (at level 61, right associativity) : res_scope.

(** ** [os.path.splitext] *)

(** The index of the last character of [s] that satisfies [p], counted
    from [i], or [none]. *)
Fixpoint rfind_from (p : ascii -> bool) (s : string) (i none : Z) : Z :=
  match s with
  | String c s' => rfind_from p s' (i + 1) (if p c then i else none)
  | EmptyString => none
  end.

Definition rfind (p : ascii -> bool) (s : string) : Z := rfind_from p s 0 (-1).

Definition slice (s : string) (from to : Z) : string :=
  substring (Z.to_nat from) (Z.to_nat (to - from)) s.

Fixpoint all_dots (s : string) : bool :=
  match s with
  | String c s' => Ascii.eqb c "." && all_dots s'
  | EmptyString => true
  end.

(** [genericpath._splitext]: the extension starts at the last dot of the
    last component, unless only dots precede it there.  [is_sep] is "/" on
    POSIX, "\" or "/" on Windows. *)
Definition splitext (is_sep : ascii -> bool) (p : string) : string * string :=
  let sepIndex := rfind is_sep p in
  let dotIndex := rfind (Ascii.eqb ".") p in
  if (sepIndex <? dotIndex)
     && negb (all_dots (slice p (sepIndex + 1) dotIndex))
  then (slice p 0 dotIndex, slice p dotIndex (Z.of_nat (String.length p)))
  else (p, "").

Definition posix_sep (c : ascii) : bool := Ascii.eqb c "/".
Definition nt_sep (c : ascii) : bool := Ascii.eqb c "\" || Ascii.eqb c "/".

(** ** [Joint-Template-Generator.py] *)

Module Generator.
Section Generator.
Context {F : Type} {num : PyNum F}.

Definition generate_box_image (fuel : nat)
    (board_width_mm board_height_mm finger_width_mm : F) (dpi : Z)
    (start_with_finger : bool) : run (image F) :=
  mm_to_px <-- lift (mm_to_px_of dpi) ;;
  margin_px <-- lift (to_px (lit 5 0) mm_to_px) ;;
  board_width_px <-- lift (to_px board_width_mm mm_to_px) ;;
  board_height_px <-- lift (to_px board_height_mm mm_to_px) ;;
  let img_width := board_width_px + 2 * margin_px in
  let img_height := board_height_px + 2 * margin_px + 80 in
  let canvas :=
    [Text margin_px margin_px
       (TitleBox board_width_mm finger_width_mm) font_title;
     Text margin_px (margin_px + 24) (InfoPrint dpi) font_small] in
  let origin_y := margin_px + 50 in
  let left_x := margin_px in
  let top_y := origin_y in
  let right_x := left_x + board_width_px in
  let bottom_y := top_y + board_height_px in
  let canvas := canvas ++ [Outline left_x top_y right_x bottom_y] in
  finger_width_px <-- lift (to_px finger_width_mm mm_to_px) ;;
  canvas <-- draw_fingers fuel finger_width_px left_x right_x top_y bottom_y
               start_with_finger canvas ;;
  canvas <-- draw_ruler fuel board_width_mm mm_to_px left_x bottom_y canvas ;;
  Some (Ok {| img_width := img_width; img_height := img_height;
              drawn := canvas |}).

Definition parse_ratio (text : string) : res F :=
  let text := strip text in
  if contains ":" text then
    match split ":" text with
    | p0 :: p1 :: _ =>
        left <- py_float p0 ;;
        right <- py_float p1 ;;
        if feqb left (lit 0 0)
        then Err (ValueError_msg "Ratio left side cannot be zero.")
        else fdiv right left
    | _ => Err IndexError
    end
  else py_float text.

Definition polygon_px (top_y bottom_y : Z) (t : tail F) : shape F :=
  Polygon [(left_top t, top_y); (right_top t, top_y);
           (right_bottom t, bottom_y); (left_bottom t, bottom_y)].

Definition generate_dovetail_image (fuel : nat)
    (board_width_mm board_height_mm : F) (num_tails : Z) (ratio_val : F)
    (dpi : Z) : run (image F) :=
  mm_to_px <-- lift (mm_to_px_of dpi) ;;
  margin_px <-- lift (to_px (lit 5 0) mm_to_px) ;;
  board_width_px <-- lift (to_px board_width_mm mm_to_px) ;;
  board_height_px <-- lift (to_px board_height_mm mm_to_px) ;;
  let img_width := board_width_px + 2 * margin_px in
  let img_height := board_height_px + 2 * margin_px + 100 in
  let margin := margin_px in
  let canvas :=
    [Text margin margin
       (TitleDovetail board_width_mm num_tails ratio_val) font_title;
     Text margin (margin + 24) (InfoPrint dpi) font_small] in
  let origin_y := margin + 50 in
  let left_x := margin in
  let top_y := origin_y in
  let right_x := left_x + board_width_px in
  let bottom_y := top_y + board_height_px in
  let canvas := canvas ++ [Outline left_x top_y right_x bottom_y] in
  l <-- lift (dovetail_layout (of_int board_width_px)
                (of_int board_height_px) num_tails ratio_val) ;;
  lx <-- lift (of_int left_x) ;;
  let tail_start_x := fadd lx (pin_width l) in
  ts <-- lift (tails l tail_start_x num_tails) ;;
  let canvas := canvas ++ map (polygon_px top_y bottom_y) ts in
  canvas <-- draw_ruler fuel board_width_mm mm_to_px left_x bottom_y canvas ;;
  Some (Ok {| img_width := img_width; img_height := img_height;
              drawn := canvas |}).

(** *** The vector documents *)

Record svg_finger_state : Type := {
  vs_x : F;
  vs_draw_finger : bool;
  vs_lines : list (svg_elem F)
}.

(** [x < end_x - 1e-6] *)
Definition svg_finger_cond (end_x : F) (s : svg_finger_state) : bool :=
  fltb (vs_x s) (fsub end_x (lit 1 (-6))).

Definition svg_finger_body (finger_width_mm end_x height : F)
    (s : svg_finger_state) : res svg_finger_state :=
  let x := vs_x s in
  let seg := py_min finger_width_mm (fsub end_x x) in
  Ok {| vs_x := fadd x seg;
        vs_draw_finger := negb (vs_draw_finger s);
        vs_lines :=
          if vs_draw_finger s && fltb (lit 0 0) seg
          then vs_lines s ++ [SvgRect x (lit 0 0) seg height]
          else vs_lines s |}.

(** The document [save_box_svg] writes to [path]. *)
Definition save_box_svg (fuel : nat)
    (board_width_mm board_height_mm finger_width_mm : F)
    (start_with_finger : bool) : run (svg F) :=
  let width := board_width_mm in
  let height := board_height_mm in
  let lines := [SvgRect (lit 0 0) (lit 0 0) width height] in
  s <-- while (svg_finger_cond width)
          (svg_finger_body finger_width_mm width height) fuel
          {| vs_x := lit 0 0; vs_draw_finger := start_with_finger;
             vs_lines := lines |} ;;
  Some (Ok {| svg_width := width; svg_height := height;
              svg_elems := vs_lines s |}).

Definition polygon_mm (height : F) (t : tail F) : svg_elem F :=
  SvgPolygon [(left_top t, lit 0 0); (right_top t, lit 0 0);
              (right_bottom t, height); (left_bottom t, height)].

(** The document [save_dovetail_svg] writes to [path]. *)
Definition save_dovetail_svg (board_width_mm board_height_mm : F)
    (num_tails : Z) (ratio_val : F) : res (svg F) :=
  let width := board_width_mm in
  let height := board_height_mm in
  l <- dovetail_layout (Ok width) (Ok height) num_tails ratio_val ;;
  let tail_start_x := pin_width l in
  let lines := [SvgRect (lit 0 0) (lit 0 0) width height] in
  ts <- tails l tail_start_x num_tails ;;
  Ok {| svg_width := width; svg_height := height;
        svg_elems := lines ++ map (polygon_mm height) ts |}.

(** *** The form and the handler of "Generate" *)

Record form : Type := {
  joint_type_var : string;
  entry_board_width : string;
  entry_height : string;
  entry_dpi : string;
  entry_finger_width : string;
  var_start_with_finger : bool;
  entry_tails : string;
  entry_ratio : string;
  var_out_png : bool;
  var_out_svg : bool;
  var_out_pdf : bool;
  var_out_docx : bool
}.

(** What the run meets outside the program: the answer of the save
    dialog (empty when cancelled), whether [python-docx] was importable,
    the path separators of the platform. *)
Record env : Type := {
  asksaveasfilename : string;
  docx_installed : bool;
  is_sep : ascii -> bool
}.

Inductive joint_params : Type :=
| BoxParams (finger_width_mm : F) (start_with_finger : bool)
| DovetailParams (num_tails : Z) (ratio_val : F).

(** What the first half of the handler hands to the second. *)
Record request : Type := {
  req_board_width_mm : F;
  req_board_height_mm : F;
  req_dpi : Z;
  req_joint : joint_params;
  req_img : image F
}.

(** *** The fields of the joints *)

(** The state of a widget. *)
Inductive widget_state : Type := normal | disabled.

(** The states of the four fields of the joints. *)
Record field_states : Type := {
  state_finger_width : widget_state;
  state_start_with_finger : widget_state;
  state_tails : widget_state;
  state_ratio : widget_state
}.

(** Lines 285-296: the fields of the joint that is not selected are
    disabled. *)
Definition update_field_states (f : form) : field_states :=
  let jt := joint_type_var f in
  if String.eqb jt "box" then
    {| state_finger_width := normal;
       state_start_with_finger := normal;
       state_tails := disabled;
       state_ratio := disabled |}
  else
    {| state_finger_width := disabled;
       state_start_with_finger := disabled;
       state_tails := normal;
       state_ratio := normal |}.

(** Lines 301-338: the inputs are read and checked and the image is
    drawn. *)
Definition read_and_draw (fuel : nat) (f : form) : gui F request :=
  board_width_mm <~ of_res (py_float (entry_board_width f)) ;;
  board_height_mm <~ of_res (py_float (entry_height f)) ;;
  dpi <~ of_res (py_int (entry_dpi f)) ;;
  if fleb board_width_mm (lit 0 0) || fleb board_height_mm (lit 0 0)
     || (dpi <=? 0)
  then emit (ShowError "Invalid input"
               (Msg "Board dimensions and DPI must be > 0.")) ;;;
       stop_with Return
  else
  let outputs_selected :=
    var_out_png f || var_out_svg f || var_out_pdf f || var_out_docx f in
  if negb outputs_selected
  then emit (ShowError "No output format"
               (Msg "Select at least one output format.")) ;;;
       stop_with Return
  else
  let joint_type := joint_type_var f in
  if String.eqb joint_type "box" then
    finger_width_mm <~ of_res (py_float (entry_finger_width f)) ;;
    if fleb finger_width_mm (lit 0 0) || fltb board_width_mm finger_width_mm
    then emit (ShowError "Invalid input"
                 (Msg "Finger width must be > 0 and <= board width.")) ;;;
         stop_with Return
    else
    let start_with_finger := var_start_with_finger f in
    img <~ of_run (generate_box_image fuel board_width_mm board_height_mm
                     finger_width_mm dpi start_with_finger) ;;
    gret {| req_board_width_mm := board_width_mm;
            req_board_height_mm := board_height_mm;
            req_dpi := dpi;
            req_joint := BoxParams finger_width_mm start_with_finger;
            req_img := img |}
  else
    num_tails <~ of_res (py_int (entry_tails f)) ;;
    if num_tails <? 1
    then emit (ShowError "Invalid input"
                 (Msg "Number of tails must be at least 1.")) ;;;
         stop_with Return
    else
    ratio_val <~ of_res (parse_ratio (entry_ratio f)) ;;
    if fleb ratio_val (lit 0 0)
    then emit (ShowError "Invalid input"
                 (Msg "Dovetail ratio must be > 0.")) ;;;
         stop_with Return
    else
    img <~ of_run (generate_dovetail_image fuel board_width_mm
                     board_height_mm num_tails ratio_val dpi) ;;
    gret {| req_board_width_mm := board_width_mm;
            req_board_height_mm := board_height_mm;
            req_dpi := dpi;
            req_joint := DovetailParams num_tails ratio_val;
            req_img := img |}.

(** Lines 340-395: the base name is asked for and the files are
    written. *)
Definition export (fuel : nat) (f : form) (e : env) (r : request)
    : gui F unit :=
  let board_width_mm := req_board_width_mm r in
  let board_height_mm := req_board_height_mm r in
  let dpi := req_dpi r in
  let img := req_img r in
  let file_path := asksaveasfilename e in
  if String.eqb file_path "" then stop_with Return else
  let base := fst (splitext (is_sep e) file_path) in
  let messages := [] in
  let png_path := String.append base ".png" in
  emit (Save png_path (PNG img)) ;;;
  let messages :=
    if var_out_png f
    then messages ++ [String.append "PNG: " png_path] else messages in
  messages <~
    (if var_out_pdf f then
       let pdf_path := String.append base ".pdf" in
       emit (Save pdf_path (PDF img dpi)) ;;;
       gret (messages ++ [String.append "PDF: " pdf_path])
     else gret messages) ;;
  messages <~
    (if var_out_svg f then
       let svg_path := String.append base ".svg" in
       doc <~ match req_joint r with
              | BoxParams finger_width_mm start_with_finger =>
                  of_run (save_box_svg fuel board_width_mm board_height_mm
                            finger_width_mm start_with_finger)
              | DovetailParams num_tails ratio_val =>
                  of_res (save_dovetail_svg board_width_mm board_height_mm
                            num_tails ratio_val)
              end ;;
       emit (Save svg_path (SVG doc)) ;;;
       gret (messages ++ [String.append "SVG (LightBurn): " svg_path])
     else gret messages) ;;
  messages <~
    (if var_out_docx f then
       if negb (docx_installed e)
       then stop_with (Raise (RuntimeError
              "python-docx is not installed. Install with: pip install python-docx"))
       else
       let docx_path := String.append base ".docx" in
       (* joint_type == "box" exactly when the parameters are a box's *)
       let jt_label :=
         match req_joint r with
         | BoxParams _ _ => "Box joint"
         | DovetailParams _ _ => "Dovetail joint"
         end in
       let doc :=
         [DocHeading "Joint Template"; DocType jt_label;
          DocBoardWidth board_width_mm; DocHeight board_height_mm]
         ++ match req_joint r with
            | BoxParams finger_width_mm start_with_finger =>
                [DocFingerWidth finger_width_mm;
                 DocStartWithFinger start_with_finger]
            | DovetailParams num_tails ratio_val =>
                [DocTails num_tails; DocRatio ratio_val]
            end
         ++ [DocPicture png_path (fadd board_width_mm (lit 10 0))] in
       emit (Save docx_path (DOCX doc)) ;;;
       gret (messages ++ [String.append "Word (DOCX): " docx_path])
     else gret messages) ;;
  emit (ShowInfo "Templates generated" ("Generated:" :: messages)).

Definition generate_templates_body (fuel : nat) (f : form) (e : env)
    : gui F unit :=
  r <~ read_and_draw fuel f ;; export fuel f e r.

Definition generate_templates (fuel : nat) (f : form) (e : env)
    : option (list (event F)) :=
  try_except (generate_templates_body fuel f e)
    (fun ve => ShowError "Invalid input" (Str ve))
    (fun ex => ShowError "Error" (ErrorOccurred ex)).

End Generator.
End Generator.

(** ** [Box-Joint.py] *)

Module BoxJoint.
Section BoxJoint.
Context {F : Type} {num : PyNum F}.

Record form : Type := {
  entry_board_width : string;
  entry_finger_width : string;
  entry_board_height : string;
  entry_dpi : string;
  var_start_with_finger : bool
}.

Record env : Type := {
  asksaveasfilename : string;
  os_name_nt : bool
}.

(** Lines 34-113: the image that is saved. *)
Definition drawing (fuel : nat)
    (board_width_mm board_height_mm finger_width_mm : F) (dpi : Z)
    (start_with_finger : bool) : run (image F) :=
  mm_to_px <-- lift (mm_to_px_of dpi) ;;
  margin_px <-- lift (to_px (lit 5 0) mm_to_px) ;;
  board_width_px <-- lift (to_px board_width_mm mm_to_px) ;;
  board_height_px <-- lift (to_px board_height_mm mm_to_px) ;;
  finger_width_px <-- lift (to_px finger_width_mm mm_to_px) ;;
  let img_width := board_width_px + 2 * margin_px in
  let img_height := board_height_px + 2 * margin_px + 80 in
  let canvas :=
    [Text margin_px margin_px
       (TitleBox board_width_mm finger_width_mm) font_title;
     Text margin_px (margin_px + 24) (InfoPrint dpi) font_small] in
  let origin_y := margin_px + 50 in
  let left_x := margin_px in
  let top_y := origin_y in
  let right_x := left_x + board_width_px in
  let bottom_y := top_y + board_height_px in
  let canvas := canvas ++ [Outline left_x top_y right_x bottom_y] in
  canvas <-- draw_fingers fuel finger_width_px left_x right_x top_y bottom_y
               start_with_finger canvas ;;
  canvas <-- draw_ruler fuel board_width_mm mm_to_px left_x bottom_y canvas ;;
  Some (Ok {| img_width := img_width; img_height := img_height;
              drawn := canvas |}).

Definition generate_template_body (fuel : nat) (f : form) (e : env)
    : gui F unit :=
  board_width_mm <~ of_res (py_float (entry_board_width f)) ;;
  finger_width_mm <~ of_res (py_float (entry_finger_width f)) ;;
  board_height_mm <~ of_res (py_float (entry_board_height f)) ;;
  dpi <~ of_res (py_int (entry_dpi f)) ;;
  let start_with_finger := var_start_with_finger f in
  if fleb board_width_mm (lit 0 0) || fleb finger_width_mm (lit 0 0)
     || fleb board_height_mm (lit 0 0) || (dpi <=? 0)
  then emit (ShowError "Invalid input"
               (Msg "All numeric values must be greater than zero.")) ;;;
       stop_with Return
  else
  if fltb board_width_mm finger_width_mm
  then emit (ShowError "Invalid input"
               (Msg "Finger width cannot be greater than board width.")) ;;;
       stop_with Return
  else
  let file_path := asksaveasfilename e in
  if String.eqb file_path "" then stop_with Return else
  img <~ of_run (drawing fuel board_width_mm board_height_mm finger_width_mm
                   dpi start_with_finger) ;;
  emit (Save file_path (PNG img)) ;;;
  emit (ShowInfo "Done" ["Template saved to:"; file_path]) ;;;
  if os_name_nt e then emit (StartFile file_path) else gret tt.

Definition generate_template (fuel : nat) (f : form) (e : env)
    : option (list (event F)) :=
  try_except (generate_template_body fuel f e)
    (fun _ => ShowError "Invalid input" (Msg "Please enter valid numbers."))
    (fun ex => ShowError "Error" (ErrorOccurred ex)).

End BoxJoint.
End BoxJoint.

(** ** [Dovetail-Joint.py] *)

Module DovetailJoint.
Section DovetailJoint.
Context {F : Type} {num : PyNum F}.

(** As the generator's parser, with every failure of a branch turned into
    the [ValueError] of that branch. *)
Definition parse_ratio (text : string) : res F :=
  let text := strip text in
  if contains ":" text then
    match
      match split ":" text with
      | p0 :: p1 :: _ =>
          left <- py_float p0 ;;
          right <- py_float p1 ;;
          if feqb left (lit 0 0)
          then Err (ValueError_msg "Ratio left side cannot be zero.")
          else fdiv right left
      | _ => Err IndexError
      end
    with
    | Ok r => Ok r
    | Err _ => Err (ValueError_msg "Invalid ratio format. Use e.g. 6 or 1:6")
    end
  else
    match py_float text with
    | Ok r => Ok r
    | Err _ => Err (ValueError_msg "Invalid ratio value. Use e.g. 6 or 1:6")
    end.

Record form : Type := {
  entry_board_width : string;
  entry_board_height : string;
  entry_tails : string;
  entry_ratio : string;
  entry_dpi : string
}.

Record env : Type := {
  asksaveasfilename : string;
  os_name_nt : bool
}.

(** Lines 58-160: the image that is saved. *)
Definition drawing (fuel : nat) (board_width_mm board_height_mm : F)
    (num_tails : Z) (ratio_val : F) (dpi : Z) : run (image F) :=
  mm_to_px <-- lift (mm_to_px_of dpi) ;;
  margin_px <-- lift (to_px (lit 5 0) mm_to_px) ;;
  board_width_px <-- lift (to_px board_width_mm mm_to_px) ;;
  board_height_px <-- lift (to_px board_height_mm mm_to_px) ;;
  let img_width := board_width_px + 2 * margin_px in
  let img_height := board_height_px + 2 * margin_px + 100 in
  let canvas :=
    [Text margin_px margin_px
       (TitleDovetail board_width_mm num_tails ratio_val) font_title;
     Text margin_px (margin_px + 24) (InfoPrint dpi) font_small] in
  let origin_y := margin_px + 50 in
  let left_x := margin_px in
  let top_y := origin_y in
  let right_x := left_x + board_width_px in
  let bottom_y := top_y + board_height_px in
  let canvas := canvas ++ [Outline left_x top_y right_x bottom_y] in
  l <-- lift (dovetail_layout (of_int board_width_px)
                (of_int board_height_px) num_tails ratio_val) ;;
  lx <-- lift (of_int left_x) ;;
  let tail_start_x := fadd lx (pin_width l) in
  ts <-- lift (tails l tail_start_x num_tails) ;;
  let canvas := canvas ++ map (Generator.polygon_px top_y bottom_y) ts in
  canvas <-- draw_ruler fuel board_width_mm mm_to_px left_x bottom_y canvas ;;
  Some (Ok {| img_width := img_width; img_height := img_height;
              drawn := canvas |}).

Definition generate_template_body (fuel : nat) (f : form) (e : env)
    : gui F unit :=
  board_width_mm <~ of_res (py_float (entry_board_width f)) ;;
  board_height_mm <~ of_res (py_float (entry_board_height f)) ;;
  num_tails <~ of_res (py_int (entry_tails f)) ;;
  dpi <~ of_res (py_int (entry_dpi f)) ;;
  ratio_val <~ of_res (parse_ratio (entry_ratio f)) ;;
  if fleb board_width_mm (lit 0 0) || fleb board_height_mm (lit 0 0)
     || (num_tails <=? 0) || (dpi <=? 0)
  then emit (ShowError "Invalid input"
               (Msg "All numeric values must be greater than zero.")) ;;;
       stop_with Return
  else
  if num_tails <? 1
  then emit (ShowError "Invalid input"
               (Msg "Number of tails must be at least 1.")) ;;;
       stop_with Return
  else
  let file_path := asksaveasfilename e in
  if String.eqb file_path "" then stop_with Return else
  img <~ of_run (drawing fuel board_width_mm board_height_mm num_tails
                   ratio_val dpi) ;;
  emit (Save file_path (PNG img)) ;;;
  emit (ShowInfo "Done" ["Template saved to:"; file_path]) ;;;
  if os_name_nt e then emit (StartFile file_path) else gret tt.

Definition generate_template (fuel : nat) (f : form) (e : env)
    : option (list (event F)) :=
  try_except (generate_template_body fuel f e)
    (fun ve => ShowError "Invalid input" (Str ve))
    (fun ex => ShowError "Error" (ErrorOccurred ex)).

End DovetailJoint.
End DovetailJoint.

(** * The vocabulary of the statements *)

(** What the proofs below use of an instance. *)
Class PyNumLaws (F : Type) (num : PyNum F) : Prop := {
  fltb_irrefl : forall x : F, fltb x x = false;
  fltb_fleb : forall x y : F, fltb x y = true -> fleb x y = true;
  fdiv_nonzero : forall x y : F,
      feqb y (lit 0 0) = false -> exists q, fdiv x y = Ok q;
  fdiv_zero : forall x y : F,
      feqb y (lit 0 0) = true -> fdiv x y = Err ZeroDivisionError;
  int_leb_antitone : forall (n n' : Z) (x : F),
      n <= n' -> int_leb n' x = true -> int_leb n x = true
}.

Definition sum_widths (segs : list segment) : Z :=
  fold_right (fun s acc => seg_width s + acc) 0 segs.

(** Segments laid left to right from [x]: each as wide as a finger or as
    what is left, alternately solid and gap from [solid], up to [end_x]. *)
Fixpoint laid_out (finger_width_px end_x x : Z) (solid : bool)
    (segs : list segment) : Prop :=
  match segs with
  | [] => end_x <= x
  | s :: rest =>
      x < end_x /\ seg_x s = x /\
      seg_width s = Z.min finger_width_px (end_x - x) /\
      seg_solid s = solid /\
      laid_out finger_width_px end_x (x + seg_width s) (negb solid) rest
  end.

(** The rectangle drawn for a solid segment. *)
Definition finger_rect {F : Type} (top_y bottom_y : Z) (s : segment)
    : shape F :=
  FilledRect (seg_x s) top_y (seg_x s + seg_width s) bottom_y.

(** The segments of a request ([Box-Joint.py] 35-41 and 77-87): the
    conversions to pixels, then the turns of the loop, once it has
    stopped. *)
Definition request_segments {F : Type} {num : PyNum F} (fuel : nat)
    (board_width_mm finger_width_mm : F) (dpi : Z)
    (start_with_finger : bool) : run (list segment) :=
  mm_to_px <-- lift (mm_to_px_of dpi) ;;
  margin_px <-- lift (to_px (lit 5 0) mm_to_px) ;;
  board_width_px <-- lift (to_px board_width_mm mm_to_px) ;;
  finger_width_px <-- lift (to_px finger_width_mm mm_to_px) ;;
  let left_x := margin_px in
  let right_x := left_x + board_width_px in
  _ <-- while (finger_cond right_x)
          (finger_body finger_width_px right_x 0 0) fuel
          {| fs_x := left_x; fs_draw_finger := start_with_finger;
             fs_drawn := @nil (shape F) |} ;;
  Some (Ok (box_segments (F := F) fuel finger_width_px left_x right_x 0 0
              start_with_finger)).

(** The request of the form as it opens: a 100 mm board, 10 mm fingers,
    300 dpi; and the same board with fingers of a hundredth of a
    millimetre. *)
Definition box_form (finger_width : string) : BoxJoint.form :=
  {| BoxJoint.entry_board_width := "100";
     BoxJoint.entry_finger_width := finger_width;
     BoxJoint.entry_board_height := "40";
     BoxJoint.entry_dpi := "300";
     BoxJoint.var_start_with_finger := true |}.

Definition box_env : BoxJoint.env :=
  {| BoxJoint.asksaveasfilename := "BoxJointTemplate.png";
     BoxJoint.os_name_nt := false |}.

Definition generator_box_form (finger_width : string) : Generator.form :=
  {| Generator.joint_type_var := "box";
     Generator.entry_board_width := "100";
     Generator.entry_height := "40";
     Generator.entry_dpi := "300";
     Generator.entry_finger_width := finger_width;
     Generator.var_start_with_finger := true;
     Generator.entry_tails := "3";
     Generator.entry_ratio := "6";
     Generator.var_out_png := true;
     Generator.var_out_svg := true;
     Generator.var_out_pdf := false;
     Generator.var_out_docx := false |}.

Definition generator_env : Generator.env :=
  {| Generator.asksaveasfilename := "template.png";
     Generator.docx_installed := false;
     Generator.is_sep := posix_sep |}.

(** The segments of the request of the form as it opens: ten fingers of
    118 pixels and a last one of the pixel that is left of the 1181. *)
Definition scenario_segments : list segment :=
  [ {| seg_x := 59; seg_width := 118; seg_solid := true |};
    {| seg_x := 177; seg_width := 118; seg_solid := false |};
    {| seg_x := 295; seg_width := 118; seg_solid := true |};
    {| seg_x := 413; seg_width := 118; seg_solid := false |};
    {| seg_x := 531; seg_width := 118; seg_solid := true |};
    {| seg_x := 649; seg_width := 118; seg_solid := false |};
    {| seg_x := 767; seg_width := 118; seg_solid := true |};
    {| seg_x := 885; seg_width := 118; seg_solid := false |};
    {| seg_x := 1003; seg_width := 118; seg_solid := true |};
    {| seg_x := 1121; seg_width := 118; seg_solid := false |};
    {| seg_x := 1239; seg_width := 1; seg_solid := true |} ].

(** Ten segments of 118 pixels, the first solid, as the specification
    expects of the opening request. *)
Definition ten_segments_claim : Prop :=
  exists (fuel : nat) (segs : list segment),
    request_segments (num := F64.num) fuel (lit 100 0) (lit 10 0) 300 true
    = Some (Ok segs) /\
    List.length segs = 10%nat /\
    Forall (fun s => seg_width s = 118) segs /\
    option_map seg_solid (hd_error segs) = Some true.






(** The marks of a tick; in exact arithmetic no conversion fails. *)
Definition exact_marks (mm_to_px : Q) (left_x ruler_top_y mm_val : Z)
    : list (shape Q) :=
  match tick_marks (num := Exact.num) mm_to_px left_x ruler_top_y mm_val with
  | Ok marks => marks
  | Err _ => []
  end.



Definition is_ShowError {F : Type} (ev : event F) : Prop :=
  match ev with
  | ShowError _ _ => True
  | _ => False
  end.

(** A step that shows nothing but errors. *)
Definition quiet {F A : Type} (m : gui F A) : Prop :=
  Forall is_ShowError (fst m).

(** [base + ".png"], the path of the master image. *)
Definition png_path_of (e : Generator.env) : string :=
  String.append
    (fst (splitext (Generator.is_sep e) (Generator.asksaveasfilename e)))
    ".png".

(** The opening request of the form with only the vector output
    selected. *)
Definition svg_only_form : Generator.form :=
  {| Generator.joint_type_var := "box";
     Generator.entry_board_width := "100";
     Generator.entry_height := "40";
     Generator.entry_dpi := "300";
     Generator.entry_finger_width := "10";
     Generator.var_start_with_finger := true;
     Generator.entry_tails := "3";
     Generator.entry_ratio := "6";
     Generator.var_out_png := false;
     Generator.var_out_svg := true;
     Generator.var_out_pdf := false;
     Generator.var_out_docx := false |}.

Definition svg_only_run : list (event F64.float) :=
  match
    Generator.generate_templates (num := F64.num) 30 svg_only_form
      generator_env
  with
  | Some tr => tr
  | None => []
  end.

(** The request of the form of [Dovetail-Joint.py] as it opens, with
    another ratio. *)
Definition dovetail_form (ratio : string) : DovetailJoint.form :=
  {| DovetailJoint.entry_board_width := "100";
     DovetailJoint.entry_board_height := "40";
     DovetailJoint.entry_tails := "3";
     DovetailJoint.entry_ratio := ratio;
     DovetailJoint.entry_dpi := "300" |}.

Definition dovetail_env : DovetailJoint.env :=
  {| DovetailJoint.asksaveasfilename := "DovetailTemplate.png";
     DovetailJoint.os_name_nt := false |}.

Definition generator_dovetail_form (ratio : string) : Generator.form :=
  {| Generator.joint_type_var := "dovetail";
     Generator.entry_board_width := "100";
     Generator.entry_height := "40";
     Generator.entry_dpi := "300";
     Generator.entry_finger_width := "10";
     Generator.var_start_with_finger := true;
     Generator.entry_tails := "3";
     Generator.entry_ratio := ratio;
     Generator.var_out_png := true;
     Generator.var_out_svg := true;
     Generator.var_out_pdf := false;
     Generator.var_out_docx := false |}.




(** ** Vocabulary of the further properties *)

(** The filled rectangles among what was drawn, by their corners. *)
Definition filled_rects {F : Type} (drawn : list (shape F))
    : list (Z * Z * Z * Z) :=
  flat_map (fun s => match s with
                     | FilledRect x0 y0 x1 y1 => [(x0, y0, x1, y1)]
                     | _ => []
                     end) drawn.

(** Rectangles from [top_y] to [bottom_y] that stand from left to right
    between [lo] and [hi]: none is empty and none starts before the one
    before it ends. *)
Fixpoint fingers_in_order (lo hi top_y bottom_y : Z)
    (rects : list (Z * Z * Z * Z)) : Prop :=
  match rects with
  | [] => True
  | (x0, y0, x1, y1) :: rest =>
      lo <= x0 /\ x0 < x1 /\ x1 <= hi /\ y0 = top_y /\ y1 = bottom_y /\
      fingers_in_order x1 hi top_y bottom_y rest
  end.

(** A mark of the ruler: a line or a text. *)
Definition is_mark {F : Type} (s : shape F) : Prop :=
  match s with
  | Line _ _ _ _ | Text _ _ _ _ => True
  | _ => False
  end.


(** A file that is written. *)
Definition is_Save {F : Type} (ev : event F) : Prop :=
  match ev with
  | Save _ _ => True
  | _ => False
  end.

(** The paths that were written, in order. *)
Definition written_paths {F : Type} (tr : list (event F)) : list string :=
  flat_map (fun ev => match ev with Save p _ => [p] | _ => [] end) tr.

(** [base] of [base, _ = os.path.splitext(file_path)]. *)
Definition base_of (e : Generator.env) : string :=
  fst (splitext (Generator.is_sep e) (Generator.asksaveasfilename e)).

(** The outputs besides the master image that a form selects, in the
    order in which the handler writes them: the label of the summary and
    the path. *)
Definition optional_outputs (f : Generator.form) (base : string)
    : list (string * string) :=
  (if Generator.var_out_pdf f
   then [("PDF: ", String.append base ".pdf")] else [])
  ++ (if Generator.var_out_svg f
      then [("SVG (LightBurn): ", String.append base ".svg")] else [])
  ++ (if Generator.var_out_docx f
      then [("Word (DOCX): ", String.append base ".docx")] else []).

(** The lines of the summary of a form. *)
Definition summary (f : Generator.form) (base : string) : list string :=
  "Generated:"
  :: (if Generator.var_out_png f
      then [String.append "PNG: " (String.append base ".png")] else [])
  ++ map (fun lp => String.append (fst lp) (snd lp)) (optional_outputs f base).

(** The error raised when a Word document is asked for without
    [python-docx]. *)
Definition docx_missing : exn :=
  RuntimeError
    "python-docx is not installed. Install with: pip install python-docx".

(** The box the handler of the combined generator shows for an exception:
    "Invalid input" for a [ValueError], "Error" for the rest. *)
Definition error_box {F : Type} (ex : exn) : event F :=
  if is_ValueError ex then ShowError "Invalid input" (Str ex)
  else ShowError "Error" (ErrorOccurred ex).

(** The opening request of the form with the master image and a Word
    document selected. *)
Definition docx_form : Generator.form :=
  {| Generator.joint_type_var := "box";
     Generator.entry_board_width := "100";
     Generator.entry_height := "40";
     Generator.entry_dpi := "300";
     Generator.entry_finger_width := "10";
     Generator.var_start_with_finger := true;
     Generator.entry_tails := "3";
     Generator.entry_ratio := "6";
     Generator.var_out_png := true;
     Generator.var_out_svg := false;
     Generator.var_out_pdf := false;
     Generator.var_out_docx := true |}.

(** The environment in which the save dialog is cancelled. *)
Definition cancelled_env : Generator.env :=
  {| Generator.asksaveasfilename := "";
     Generator.docx_installed := false;
     Generator.is_sep := posix_sep |}.

(** * Properties *)

(** ** Laws of the numeric interface *)

Module F64Laws.





Lemma int_leb_antitone (n n' : Z) (x : spec_float) :
  n <= n' -> F64.int_leb n' x = true -> F64.int_leb n x = true.
Proof.
  intros Hn. destruct x as [s | s | | s m e]; simpl; auto.
  - intros H. apply Z.leb_le in H. apply Z.leb_le. lia.
  - destruct e as [ | p | p]; intros H; apply Z.leb_le in H; apply Z.leb_le;
      try lia.
    assert (0 < Z.pos (2 ^ p)) by lia. nia.
Qed.


End F64Laws.

Module ExactLaws.

#[global] Instance exact_laws : PyNumLaws Exact.num.
Proof.
  constructor; cbn.
  - intros x. unfold Exact.fltb. rewrite (proj2 (Qle_bool_iff x x)).
    + reflexivity.
    + apply Qle_refl.
  - intros x y. unfold Exact.fltb. intros H. apply Qle_bool_iff.
    destruct (Qle_bool y x) eqn:E; [discriminate | ].
    destruct (Qlt_le_dec y x) as [Hlt | Hle]; [ | exact Hle].
    apply Qlt_le_weak, Qle_bool_iff in Hlt. congruence.
  - intros x y H. unfold Exact.fdiv. change (Qeq_bool y 0 = false) in H.
    rewrite H. eauto.
  - intros x y H. unfold Exact.fdiv. change (Qeq_bool y 0 = true) in H.
    rewrite H. reflexivity.
  - intros n n' x Hn. unfold Exact.int_leb. rewrite !Qle_bool_iff.
    intros H. apply Qle_trans with (inject_Z n'); [ | exact H].
    rewrite <- Zle_Qle. exact Hn.
Qed.

End ExactLaws.

(** ** Loops *)

Section WhileFacts.
Context {S : Type} (cond : S -> bool) (body : S -> res S).

Lemma while_exit (fuel : nat) (s : S) :
  cond s = false -> while cond body fuel s = Some (Ok s).
Proof. intros H. destruct fuel; simpl; rewrite H; reflexivity. Qed.

Lemma while_step (fuel : nat) (s s' : S) :
  cond s = true -> body s = Ok s' ->
  while cond body (Datatypes.S fuel) s = while cond body fuel s'.
Proof. intros Hc Hb. simpl. rewrite Hc, Hb. reflexivity. Qed.

Lemma iterations_exit (fuel : nat) (s : S) :
  cond s = false -> iterations cond body fuel s = [].
Proof. intros H. destruct fuel; simpl; rewrite H; reflexivity. Qed.

Lemma iterations_step (fuel : nat) (s s' : S) :
  cond s = true -> body s = Ok s' ->
  iterations cond body (Datatypes.S fuel) s
  = s :: iterations cond body fuel s'.
Proof. intros Hc Hb. simpl. rewrite Hc, Hb. reflexivity. Qed.

(** A loop that has stopped has stopped for every larger fuel. *)
Lemma while_more_fuel (fuel : nat) :
  forall (s : S) (r : res S) (fuel' : nat),
    while cond body fuel s = Some r -> (fuel <= fuel')%nat ->
    while cond body fuel' s = Some r.
Proof.
  induction fuel as [ | n IH]; intros s r fuel' H Hle.
  - destruct fuel'; simpl in *; destruct (cond s); congruence.
  - destruct fuel' as [ | m]; [lia | ].
    simpl in *. destruct (cond s); [ | exact H].
    destruct (body s) as [s' | e]; [ | exact H].
    apply IH; [exact H | lia].
Qed.

Lemma iterations_more_fuel (fuel : nat) :
  forall (s : S) (r : res S) (fuel' : nat),
    while cond body fuel s = Some r -> (fuel <= fuel')%nat ->
    iterations cond body fuel' s = iterations cond body fuel s.
Proof.
  induction fuel as [ | n IH]; intros s r fuel' H Hle.
  - destruct fuel'; simpl in *; destruct (cond s); congruence.
  - destruct fuel' as [ | m]; [lia | ].
    simpl in *. destruct (cond s); [ | reflexivity].
    destruct (body s) as [s' | e]; [ | reflexivity].
    f_equal. apply IH with r; [exact H | lia].
Qed.

(** A loop that keeps an invariant under which its condition holds and
    its body does not raise never stops. *)
Lemma while_diverges (I : S -> Prop) :
  (forall s, I s -> cond s = true /\ exists s', body s = Ok s' /\ I s') ->
  forall (fuel : nat) (s : S), I s -> while cond body fuel s = None.
Proof.
  intros Hstep. induction fuel as [ | n IH]; intros s Hs;
    destruct (Hstep s Hs) as [Hc [s' [Hb Hs']]]; simpl; rewrite Hc.
  - reflexivity.
  - rewrite Hb. apply IH. exact Hs'.
Qed.

Lemma iterations_diverge (I : S -> Prop) :
  (forall s, I s -> cond s = true /\ exists s', body s = Ok s' /\ I s') ->
  forall (fuel : nat) (s : S), I s ->
    List.length (iterations cond body fuel s) = fuel /\
    Forall I (iterations cond body fuel s).
Proof.
  intros Hstep. induction fuel as [ | n IH]; intros s Hs;
    destruct (Hstep s Hs) as [Hc [s' [Hb Hs']]]; simpl; rewrite Hc.
  - split; [reflexivity | constructor].
  - rewrite Hb. destruct (IH s' Hs') as [Hlen Hall]. split.
    + simpl. f_equal. exact Hlen.
    + constructor; assumption.
Qed.

End WhileFacts.

(** ** The finger loop *)

Section Fingers.
Context {F : Type}.
Variables finger_width_px end_x top_y bottom_y : Z.

Let cond := @finger_cond F end_x.
Let body := @finger_body F finger_width_px end_x top_y bottom_y.
Let seg := @segment_of F finger_width_px end_x.

Lemma laid_out_sum (segs : list segment) :
  forall (x : Z) (solid : bool),
    x <= end_x -> laid_out finger_width_px end_x x solid segs ->
    sum_widths segs = end_x - x.
Proof.
  induction segs as [ | s rest IH]; intros x solid Hx H; simpl in *.
  - lia.
  - destruct H as (Hlt & _ & Hw & _ & Hrest).
    rewrite (IH (x + seg_width s) (negb solid)); [lia | lia | exact Hrest].
Qed.

(** With fingers of at least one pixel the loop stops, within as many
    turns as there are pixels to cover, having laid out the segments and
    drawn the solid ones. *)
Lemma fingers_finish (Hfw : 1 <= finger_width_px) (fuel : nat) :
  forall s : finger_state F,
    (Z.to_nat (end_x - fs_x s) <= fuel)%nat ->
    exists s',
      while cond body fuel s = Some (Ok s') /\
      let segs := map seg (iterations cond body fuel s) in
      laid_out finger_width_px end_x (fs_x s) (fs_draw_finger s) segs /\
      fs_x s' = Z.max (fs_x s) end_x /\
      fs_drawn s' =
        fs_drawn s ++
        map (finger_rect top_y bottom_y) (filter seg_solid segs).
Proof.
  induction fuel as [ | n IH]; intros s Hfuel;
    destruct (Z.ltb_spec (fs_x s) end_x) as [Hlt | Hge].
  - lia.
  - exists s. rewrite while_exit, iterations_exit
      by (apply Z.ltb_ge; exact Hge).
    simpl. rewrite app_nil_r. repeat split; lia.
  - set (w := Z.min finger_width_px (end_x - fs_x s)).
    assert (Hw : 1 <= w) by (unfold w; lia).
    assert (Hc : cond s = true) by (apply Z.ltb_lt; exact Hlt).
    destruct (body s) as [s1 | e] eqn:Hb; [ | discriminate Hb].
    injection Hb as Hb. fold w in Hb.
    destruct (IH s1) as (s' & Hrun & Hlaid & Hx & Hdrawn).
    { subst s1. simpl. lia. }
    exists s'.
    rewrite (while_step cond body n s Hc (s' := s1)),
      (iterations_step cond body n s Hc (s' := s1))
      by (unfold body, finger_body; fold w; rewrite Hb; reflexivity).
    split; [exact Hrun | ]. cbv zeta in *.
    subst s1. simpl in Hlaid, Hx, Hdrawn. simpl.
    repeat split; try assumption; try lia.
    rewrite Hdrawn.
    destruct (fs_draw_finger s); simpl; [ | reflexivity].
    destruct (Z.ltb_spec 0 w); [ | lia].
    rewrite <- app_assoc. reflexivity.
  - exists s. rewrite while_exit, iterations_exit
      by (apply Z.ltb_ge; exact Hge).
    simpl. rewrite app_nil_r. repeat split; lia.
Qed.

(** The segments do not depend on what was drawn before. *)
Lemma segments_any_canvas (fuel : nat) :
  forall s1 s2 : finger_state F,
    fs_x s1 = fs_x s2 -> fs_draw_finger s1 = fs_draw_finger s2 ->
    map seg (iterations cond body fuel s1)
    = map seg (iterations cond body fuel s2).
Proof.
  induction fuel as [ | n IH]; intros s1 s2 Hx Hd; simpl;
    unfold cond, finger_cond; rewrite Hx;
    destruct (fs_x s2 <? end_x); try reflexivity.
  simpl. f_equal.
  - unfold seg, segment_of. rewrite Hx, Hd. reflexivity.
  - apply IH; simpl; rewrite ?Hx, ?Hd; reflexivity.
Qed.

(** With fingers of zero pixels the loop never moves. *)
Lemma fingers_stuck (left_x : Z) (Hfw : finger_width_px = 0)
    (Hx : left_x < end_x) (fuel : nat) (s : finger_state F) :
  fs_x s = left_x ->
  while cond body fuel s = None /\
  List.length (iterations cond body fuel s) = fuel /\
  Forall (fun st => fs_x st = left_x /\ fs_drawn st = fs_drawn s)
    (iterations cond body fuel s).
Proof.
  intros Hs.
  set (I := fun st : finger_state F =>
              fs_x st = left_x /\ fs_drawn st = fs_drawn s).
  assert (Hstep : forall st, I st ->
            cond st = true /\ exists st', body st = Ok st' /\ I st').
  { intros st [H1 H2]. split.
    - unfold cond, finger_cond. apply Z.ltb_lt. lia.
    - eexists. split; [reflexivity | ]. unfold I. simpl.
      rewrite Z.min_l by lia. rewrite Hfw. simpl.
      rewrite andb_false_r. split; [lia | exact H2]. }
  assert (HI : I s) by (split; [exact Hs | reflexivity]).
  split; [exact (while_diverges cond body I Hstep fuel s HI) | ].
  exact (iterations_diverge cond body I Hstep fuel s HI).
Qed.

End Fingers.

(** ** Box joints: the requests *)

Section BoxRequests.
Context {F : Type} {num : PyNum F}.

Lemma request_segments_more_fuel (fuel fuel' : nat) (bw fw : F) (dpi : Z)
    (start : bool) (r : res (list segment)) :
  request_segments fuel bw fw dpi start = Some r -> (fuel <= fuel')%nat ->
  request_segments fuel' bw fw dpi start = Some r.
Proof.
  unfold request_segments, lift. intros H Hle.
  destruct (mm_to_px_of dpi) as [c | e]; [ | exact H]. cbn [run_bind] in *.
  destruct (to_px (lit 5 0) c) as [m | e]; [ | exact H]. cbn [run_bind] in *.
  destruct (to_px bw c) as [w | e]; [ | exact H]. cbn [run_bind] in *.
  destruct (to_px fw c) as [f | e]; [ | exact H]. cbn [run_bind] in *.
  cbv zeta in *.
  destruct (while _ _ fuel _) as [r0 | ] eqn:Hw; [ | discriminate H].
  rewrite (@while_more_fuel _ _ _ _ _ _ _ Hw Hle).
  destruct r0 as [s | e]; cbn [run_bind] in *; [ | exact H].
  unfold box_segments in *.
  rewrite (@iterations_more_fuel _ _ _ _ _ _ _ Hw Hle). exact H.
Qed.

End BoxRequests.

(** The laws of the handler monad that the evaluations below use. *)
Section GuiLaws.
Context {F A B : Type}.

Lemma gbind_gret (a : A) (k : A -> gui F B) : gbind (gret a) k = k a.
Proof. unfold gbind, gret. destruct (k a). reflexivity. Qed.

Lemma gbind_ok (a : A) (k : A -> gui F B) : gbind (of_res (Ok a)) k = k a.
Proof. apply gbind_gret. Qed.

Lemma gbind_err (e : exn) (k : A -> gui F B) :
  gbind (of_res (Err e)) k = stop_with (Raise e).
Proof. reflexivity. Qed.

Lemma gbind_hang (k : A -> gui F B) : gbind (of_run None) k = stop_with Hang.
Proof. reflexivity. Qed.

Lemma gbind_done (a : A) (k : A -> gui F B) :
  gbind (of_run (Some (Ok a))) k = k a.
Proof. apply gbind_gret. Qed.

Lemma gbind_raised (e : exn) (k : A -> gui F B) :
  gbind (of_run (Some (Err e))) k = stop_with (Raise e).
Proof. reflexivity. Qed.

End GuiLaws.

Lemma run_bind_ok {A B : Type} (a : A) (k : A -> run B) :
  run_bind (lift (Ok a)) k = k a.
Proof. reflexivity. Qed.

Lemma run_bind_err {A B : Type} (e : exn) (k : A -> run B) :
  run_bind (lift (Err e)) k = Some (Err e).
Proof. reflexivity. Qed.

(** Evaluation of the closed parts of a run, one bind at a time. *)
Ltac eval_closed t :=
  let v := eval vm_compute in t in
  replace t with v by (vm_compute; reflexivity).

Ltac step_run :=
  lazymatch goal with
  | |- run_bind (lift ?t) _ = _ =>
      eval_closed t; first [rewrite run_bind_ok | rewrite run_bind_err]
  end.

Ltac step_gui :=
  match goal with
  | |- context [gbind (of_res ?t) _] =>
      eval_closed t; first [rewrite gbind_ok | rewrite gbind_err]
  | |- context [if ?c then _ else _] => eval_closed c; cbv iota
  end.

(** X1.  With fingers of at least one pixel on a board of
    [right_x - left_x] pixels, the loop stops; its segments are laid out
    from the left edge in the starting phase, they cover the board exactly,
    and the solid ones are what is drawn. *)
Lemma box_segments_cover {F : Type}
    (finger_width_px left_x right_x top_y bottom_y : Z) (start : bool)
    (canvas : list (shape F)) (fuel : nat) :
  1 <= finger_width_px -> left_x <= right_x ->
  (Z.to_nat (right_x - left_x) <= fuel)%nat ->
  let segs :=
    box_segments (F := F) fuel finger_width_px left_x right_x top_y bottom_y
      start in
  laid_out finger_width_px right_x left_x start segs /\
  sum_widths segs = right_x - left_x /\
  draw_fingers fuel finger_width_px left_x right_x top_y bottom_y start canvas
  = Some (Ok (canvas ++
              map (finger_rect top_y bottom_y) (filter seg_solid segs))).
Proof.
  intros Hfw Hx Hfuel segs.
  destruct (@fingers_finish F finger_width_px right_x top_y bottom_y Hfw fuel
              {| fs_x := left_x; fs_draw_finger := start; fs_drawn := [] |})
    as (s0 & _ & Hlaid & _ & _); [exact Hfuel | ].
  destruct (@fingers_finish F finger_width_px right_x top_y bottom_y Hfw fuel
              {| fs_x := left_x; fs_draw_finger := start;
                 fs_drawn := canvas |})
    as (s1 & Hrun & _ & _ & Hdrawn); [exact Hfuel | ].
  cbv zeta in *. simpl in Hlaid, Hdrawn.
  split; [exact Hlaid | ].
  split; [exact (@laid_out_sum finger_width_px right_x segs left_x start Hx Hlaid) | ].
  unfold draw_fingers. rewrite Hrun. cbn [run_bind]. rewrite Hdrawn.
  do 3 f_equal. unfold segs, box_segments. do 2 f_equal.
  apply segments_any_canvas; reflexivity.
Qed.

Lemma box_segments_cover_witness :
  let segs := box_segments (F := F64.float) 10 3 0 10 0 5 true in
  laid_out 3 10 0 true segs /\
  sum_widths segs = 10 - 0 /\
  draw_fingers (F := F64.float) 10 3 0 10 0 5 true []
  = Some (Ok ([] ++ map (finger_rect 0 5) (filter seg_solid segs))).
Proof.
  apply (@box_segments_cover F64.float 3 0 10 0 5 true [] 10%nat); lia.
Defined.

Lemma drawing_hangs (fuel : nat) :
  BoxJoint.drawing (num := F64.num) fuel (lit 100 0) (lit 40 0) (lit 1 (-2))
    300 true = None.
Proof.
  unfold BoxJoint.drawing.
  do 5 step_run. cbv zeta. unfold draw_fingers.
  match goal with
  | |- context [while ?c ?b fuel ?s] =>
      destruct (@fingers_stuck _ 0 (59 + 1181) (59 + 50) (59 + 50 + 472) 59
                  eq_refl ltac:(lia) fuel s eq_refl) as [Hw _];
      rewrite Hw
  end.
  reflexivity.
Qed.

Lemma generate_box_image_hangs (fuel : nat) :
  Generator.generate_box_image (num := F64.num) fuel (lit 100 0) (lit 40 0)
    (lit 1 (-2)) 300 true = None.
Proof.
  unfold Generator.generate_box_image.
  do 4 step_run. cbv zeta. step_run. unfold draw_fingers.
  match goal with
  | |- context [while ?c ?b fuel ?s] =>
      destruct (@fingers_stuck _ 0 (59 + 1181) (59 + 50) (59 + 50 + 472) 59
                  eq_refl ltac:(lia) fuel s eq_refl) as [Hw _];
      rewrite Hw
  end.
  reflexivity.
Qed.

(** C7 (the code diverges from the claim).  The request of a 100 mm board
    with fingers of 0.01 mm at 300 dpi passes the validation of both
    programs, and the handler never returns: the fingers round to zero
    pixels, so the loop [while x < end_x] never advances, whatever the
    fuel. *)
Theorem box_loop_never_stops_on_tiny_fingers :
  forall fuel : nat,
    BoxJoint.generate_template (num := F64.num) fuel (box_form "0.01") box_env
    = None /\
    Generator.generate_templates (num := F64.num) fuel
      (generator_box_form "0.01") generator_env = None.
Proof.
  intros fuel. split.
  - unfold BoxJoint.generate_template, BoxJoint.generate_template_body.
    do 7 step_gui.
    match goal with
    | |- context [of_run ?d] =>
        replace d with (@None (res (image F64.float)))
          by (symmetry; exact (drawing_hangs fuel))
    end.
    rewrite gbind_hang. reflexivity.
  - unfold Generator.generate_templates, Generator.generate_templates_body,
      Generator.read_and_draw.
    repeat step_gui.
    match goal with
    | |- context [of_run ?d] =>
        replace d with (@None (res (image F64.float)))
          by (symmetry; exact (generate_box_image_hangs fuel))
    end.
    rewrite gbind_hang. reflexivity.
Qed.

(** C1 (the code diverges from the claim).  For a 100 mm board with
    fingers of 0.01 mm at 300 dpi, a request that passes validation, the
    conversions give a board of 1181 pixels after a margin of 59 and
    fingers of 0 pixels; every turn of the loop then makes a segment of
    width 0 at the left edge, so no number of segments covers the board
    and the run of the segments never ends. *)
Theorem box_segments_of_tiny_fingers_cover_nothing :
  (mm_to_px <- mm_to_px_of 300 ;; to_px (lit 5 0) mm_to_px) = Ok 59 /\
  (mm_to_px <- mm_to_px_of 300 ;; to_px (lit 100 0) mm_to_px) = Ok 1181 /\
  (mm_to_px <- mm_to_px_of 300 ;; to_px (lit 1 (-2)) mm_to_px) = Ok 0 /\
  forall fuel : nat,
    request_segments (num := F64.num) fuel (lit 100 0) (lit 1 (-2)) 300 true
    = None /\
    let segs :=
      box_segments (F := F64.float) fuel 0 59 (59 + 1181) 0 0 true in
    List.length segs = fuel /\
    Forall (fun s => seg_x s = 59 /\ seg_width s = 0) segs /\
    sum_widths segs = 0.
Proof.
  split; [vm_compute; reflexivity | ].
  split; [vm_compute; reflexivity | ].
  split; [vm_compute; reflexivity | ].
  intros fuel.
  destruct (@fingers_stuck F64.float 0 (59 + 1181) 0 0 59 eq_refl
              ltac:(lia) fuel
              {| fs_x := 59; fs_draw_finger := true; fs_drawn := [] |}
              eq_refl) as (Hw & Hlen & Hall).
  split.
  - unfold request_segments. do 4 step_run. cbv zeta.
    rewrite Hw. reflexivity.
  - cbv zeta. unfold box_segments. rewrite length_map.
    split; [exact Hlen | ].
    assert (Hsegs : Forall (fun s => seg_x s = 59 /\ seg_width s = 0)
              (map (segment_of (F := F64.float) 0 (59 + 1181))
                 (iterations (finger_cond (59 + 1181))
                    (finger_body 0 (59 + 1181) 0 0) fuel
                    {| fs_x := 59; fs_draw_finger := true;
                       fs_drawn := [] |}))).
    { apply Forall_map. eapply Forall_impl; [ | exact Hall].
      intros st [Hx _]. unfold segment_of. cbn [seg_x seg_width].
      rewrite Hx. split; reflexivity. }
    split; [exact Hsegs | ].
    unfold sum_widths.
    induction Hsegs as [ | s l [_ H0] _ IH]; simpl; [reflexivity | lia].
Qed.

(** C5 (amended).  A 100 mm board with 10 mm fingers at 300 dpi, starting
    with a finger, is 1181 pixels wide with fingers of 118: the loop makes
    eleven segments, ten of 118 pixels alternating from solid and a solid
    one of the last pixel. *)
Theorem box_scenario_has_eleven_segments :
  forall fuel : nat,
    (11 <= fuel)%nat ->
    request_segments (num := F64.num) fuel (lit 100 0) (lit 10 0) 300 true
    = Some (Ok scenario_segments).
Proof.
  intros fuel Hfuel.
  apply request_segments_more_fuel with (fuel := 11%nat); [ | exact Hfuel].
  vm_compute. reflexivity.
Qed.

Lemma box_scenario_has_eleven_segments_witness :
  (11 <= 11)%nat /\
  request_segments (num := F64.num) 11 (lit 100 0) (lit 10 0) 300 true
  = Some (Ok scenario_segments).
Proof.
  split; [apply le_n | apply (@box_scenario_has_eleven_segments 11%nat); apply le_n].
Defined.

(** C5 as stated fails: the loop is still running after ten turns, and
    stops after the eleventh. *)
Lemma ten_segments_claim_fails : ~ ten_segments_claim.
Proof.
  intros (fuel & segs & Hrun & Hlen & _).
  destruct (le_lt_dec 11 fuel) as [Hge | Hlt].
  - pose proof (@request_segments_more_fuel _ F64.num 11 fuel (lit 100 0)
                  (lit 10 0) 300 true (Ok scenario_segments)) as H11.
    rewrite H11 in Hrun; [ | vm_compute; reflexivity | exact Hge].
    injection Hrun as <-. discriminate Hlen.
  - do 11 (destruct fuel as [ | fuel];
           [vm_compute in Hrun; discriminate Hrun | ]).
    lia.
Qed.

(** The vector document of the same request has the ten segments: its
    loop runs on millimetres, and draws the five fingers of 10 mm at 0,
    20, 40, 60 and 80. *)
Lemma svg_scenario_has_five_fingers :
  exists doc : svg F64.float,
    Generator.save_box_svg (num := F64.num) 10 (lit 100 0) (lit 40 0)
      (lit 10 0) true = Some (Ok doc) /\
    svg_elems doc
    = SvgRect (lit 0 0) (lit 0 0) (lit 100 0) (lit 40 0)
      :: map (fun x => SvgRect (lit x 0) (lit 0 0) (lit 10 0) (lit 40 0))
           [0; 20; 40; 60; 80] /\
    List.length
      (iterations (Generator.svg_finger_cond (lit 100 0))
         (Generator.svg_finger_body (lit 10 0) (lit 100 0) (lit 40 0)) 10
         {| Generator.vs_x := lit 0 0; Generator.vs_draw_finger := true;
            Generator.vs_lines := [] |}) = 10%nat.
Proof.
  eexists. split; [vm_compute; reflexivity | ].
  split; vm_compute; reflexivity.
Qed.

(** ** Dovetails: one tail *)

Section OneTail.
Context {F : Type} {num : PyNum F}.

(** What [tail_at] returns, by its own top corners. *)
Lemma tail_at_inv (l : layout F) (tail_start_x : F) (i : Z) (t : tail F) :
  tail_at l tail_start_x i = Ok t ->
  exists k,
    of_int i = Ok k /\
    left_top t
    = fadd tail_start_x (fmul k (fadd (tail_top_width l) (pin_width l))) /\
    right_top t = fadd (left_top t) (tail_top_width l) /\
    clamp_bottom (fadd (left_top t) (offset l)) (fsub (right_top t) (offset l))
    = Ok (left_bottom t, right_bottom t).
Proof.
  unfold tail_at. intros H.
  destruct (of_int i) as [k | e]; [ | discriminate H]. cbn [rbind] in H.
  destruct (clamp_bottom _ _) as [[lb rb] | e] eqn:Hc; [ | discriminate H].
  cbn [rbind fst snd] in H. injection H as <-. cbn.
  exists k. repeat split. exact Hc.
Qed.

Context {laws : PyNumLaws num}.



End OneTail.



(** In exact arithmetic the guard is the condition of the specification:
    it fires when the inset is more than half the width of a tail (and
    when it is exactly half, where the bounds meet). *)
Lemma steep_inset_inverts (l : layout Q) (tail_start_x : Q) (i : Z)
    (t : tail Q) :
  tail_at (num := Exact.num) l tail_start_x i = Ok t ->
  (tail_top_width l / 2 < offset l)%Q ->
  fleb (fsub (right_top t) (offset l)) (fadd (left_top t) (offset l)) = true.
Proof.
  intros H Hsteep.
  destruct (tail_at_inv _ _ _ H) as (k & _ & _ & Hrt & _).
  cbn in *. rewrite Hrt. apply Qle_bool_iff.
  assert (Heq : (tail_top_width l / 2 == tail_top_width l * (1 # 2))%Q)
    by (unfold Qdiv; reflexivity).
  rewrite Heq in Hsteep. lra.
Qed.

(** ** Dovetails: the row of tails *)





Section Tails.
Context {F : Type} {num : PyNum F}.


End Tails.

(** *** In exact arithmetic *)

Section ExactTails.
Local Open Scope Q_scope.

Lemma Qeq_bool_pos (x : Q) : 0 < x -> Qeq_bool x 0 = false.
Proof.
  intros H. destruct (Qeq_bool x 0) eqn:E; [ | reflexivity].
  apply Qeq_bool_iff in E. rewrite E in H. discriminate H.
Qed.

Lemma exact_total_units (n : Z) :
  (1 <= n)%Z ->
  exists total : Q,
    total_units (num := Exact.num) n = Ok total /\
    total == inject_Z n * 1 + (inject_Z n + 1) * (1 # 2) /\
    0 < total.
Proof.
  intros Hn.
  exists (inject_Z n * Exact.lit 10 (-1) + inject_Z (n + 1) * Exact.lit 5 (-1)).
  split; [reflexivity | ].
  assert (H1 : 1 <= inject_Z n) by (rewrite (Zle_Qle 1 n) in Hn; exact Hn).
  assert (H10 : Exact.lit 10 (-1) == 1) by reflexivity.
  assert (H5 : Exact.lit 5 (-1) == 1 # 2) by reflexivity.
  rewrite inject_Z_plus, H10, H5. change (inject_Z 1) with 1.
  split; [reflexivity | lra].
Qed.

(** The layout in units: a tail is one unit, a pin half a unit, the board
    [N * 1 + (N + 1) * 0.5] units, and the inset is [height / ratio]. *)
Lemma exact_layout (width height ratio_val : Q) (num_tails : Z) :
  (1 <= num_tails)%Z -> 0 < ratio_val ->
  exists l : layout Q,
    dovetail_layout (num := Exact.num) (Ok width) (Ok height) num_tails
      ratio_val = Ok l /\
    let unit :=
      width / (inject_Z num_tails * 1 + (inject_Z num_tails + 1) * (1 # 2)) in
    tail_top_width l == 1 * unit /\
    pin_width l == (1 # 2) * unit /\
    offset l == height / ratio_val.
Proof.
  intros Hn Hr. unfold dovetail_layout.
  destruct (exact_total_units Hn) as (total & Htot & Heq & Hpos).
  rewrite Htot. cbn [rbind fdiv Exact.num]. unfold Exact.fdiv.
  rewrite (Qeq_bool_pos Hpos), (Qeq_bool_pos Hr). cbn [rbind].
  eexists. split; [reflexivity | ]. cbn.
  assert (H10 : Exact.lit 10 (-1) == 1) by reflexivity.
  assert (H5 : Exact.lit 5 (-1) == 1 # 2) by reflexivity.
  rewrite H10, H5, Heq. repeat split; reflexivity.
Qed.

End ExactTails.

Section ExactRow.
Local Open Scope Q_scope.



End ExactRow.

(** C2.  In exact arithmetic, for every width, depth, [N >= 1] and
    [R > 0] the layout exists, with a tail of one unit, a pin of half a
    unit, the unit [W / (N * 1 + (N + 1) * 0.5)], and an inset of
    [depth / R]; and in binary64 the vector layout of the 100 mm by 40 mm
    board with 3 tails at 1:6 has tails of exactly 20, pins of exactly 10
    and the inset [40 / 6], its tails standing at 10-30, 40-60 and 70-90. *)
Theorem dovetail_layout_units (width height ratio_val : Q) (num_tails : Z) :
  1 <= num_tails -> (0 < ratio_val)%Q ->
  (exists l : layout Q,
     dovetail_layout (num := Exact.num) (Ok width) (Ok height) num_tails
       ratio_val = Ok l /\
     let unit :=
       (width
        / (inject_Z num_tails * 1 + (inject_Z num_tails + 1) * (1 # 2)))%Q in
     (tail_top_width l == 1 * unit)%Q /\
     (pin_width l == (1 # 2) * unit)%Q /\
     (offset l == height / ratio_val)%Q) /\
  (exists (inset : F64.float) (ts : list (tail F64.float)),
     fdiv (lit 40 0) (lit 6 0) = Ok inset /\
     let l := {| tail_top_width := lit 20 0; pin_width := lit 10 0;
                 offset := inset |} in
     dovetail_layout (num := F64.num) (Ok (lit 100 0)) (Ok (lit 40 0)) 3
       (lit 6 0) = Ok l /\
     tails l (pin_width l) 3 = Ok ts /\
     ts = [ {| left_top := lit 10 0; right_top := lit 30 0;
               right_bottom := fsub (lit 30 0) inset;
               left_bottom := fadd (lit 10 0) inset |};
            {| left_top := lit 40 0; right_top := lit 60 0;
               right_bottom := fsub (lit 60 0) inset;
               left_bottom := fadd (lit 40 0) inset |};
            {| left_top := lit 70 0; right_top := lit 90 0;
               right_bottom := fsub (lit 90 0) inset;
               left_bottom := fadd (lit 70 0) inset |} ] /\
     Generator.save_dovetail_svg (lit 100 0) (lit 40 0) 3 (lit 6 0)
     = Ok {| svg_width := lit 100 0; svg_height := lit 40 0;
             svg_elems :=
               SvgRect (lit 0 0) (lit 0 0) (lit 100 0) (lit 40 0)
               :: map (Generator.polygon_mm (lit 40 0)) ts |}).
Proof.
  intros Hn Hr. split.
  - apply exact_layout; assumption.
  - eexists. eexists. split; [vm_compute; reflexivity | ].
    split; [vm_compute; reflexivity | ].
    split; [vm_compute; reflexivity | ].
    split; vm_compute; reflexivity.
Qed.

Lemma dovetail_layout_units_witness :
  exists l : layout Q,
    dovetail_layout (num := Exact.num) (Ok 100%Q) (Ok 40%Q) 3 6%Q = Ok l /\
    (tail_top_width l == 20)%Q /\
    (pin_width l == 10)%Q /\
    (offset l == 40 / 6)%Q.
Proof.
  destruct (@dovetail_layout_units 100%Q 40%Q 6%Q 3 ltac:(lia) eq_refl)
    as [(l & Hl & Ht & Hp & Ho) _].
  exists l. split; [exact Hl | ].
  split; [rewrite Ht; reflexivity | ].
  split; [rewrite Hp; reflexivity | exact Ho].
Defined.


(** ** The ruler *)



Section ExactRuler.
Variables (bound mm_to_px : Q) (left_x ruler_top_y : Z).

Lemma exact_tick_marks (mm_val : Z) :
  tick_marks (num := Exact.num) mm_to_px left_x ruler_top_y mm_val
  = Ok (exact_marks mm_to_px left_x ruler_top_y mm_val).
Proof. reflexivity. Qed.


Let cond (s : ruler_state Q) : bool :=
  int_leb (PyNum := Exact.num) (rs_mm_val s) bound.
Let body := ruler_body (num := Exact.num) mm_to_px left_x ruler_top_y.


End ExactRuler.

Section RulerFuel.
Context {F : Type} {num : PyNum F}.



Context {laws : PyNumLaws num}.



End RulerFuel.

Section ExactRulerLength.
Local Open Scope Q_scope.


End ExactRulerLength.




(** ** The ratio parser *)


Section RatioParser.
Context {F : Type} {num : PyNum F}.


Context {laws : PyNumLaws num}.



End RatioParser.


(** ** The handler of the combined generator *)

Section Handler.
Context {F : Type} {num : PyNum F}.

Lemma quiet_of_res {A : Type} (r : res A) : quiet (of_res (F := F) r).
Proof. destruct r; constructor. Qed.

Lemma quiet_of_run {A : Type} (r : run A) : quiet (of_run (F := F) r).
Proof. destruct r as [[a | e] | ]; constructor. Qed.

Lemma quiet_gret {A : Type} (a : A) : quiet (gret (F := F) a).
Proof. constructor. Qed.

Lemma quiet_stop {A : Type} (s : stop) : quiet (stop_with (F := F) (A := A) s).
Proof. constructor. Qed.

Lemma quiet_error (title : string) (m : message) :
  quiet (emit (F := F) (ShowError title m)).
Proof. repeat constructor. Qed.

Lemma quiet_gbind {A B : Type} (m : gui F A) (k : A -> gui F B) :
  quiet m -> (forall a, quiet (k a)) -> quiet (gbind m k).
Proof.
  unfold quiet, gbind. intros Hm Hk. destruct m as [tr [a | s]]; simpl in *.
  - specialize (Hk a). destruct (k a) as [tr' r]. simpl in *.
    apply Forall_app. split; assumption.
  - exact Hm.
Qed.

Lemma quiet_if {A : Type} (b : bool) (m1 m2 : gui F A) :
  quiet m1 -> quiet m2 -> quiet (if b then m1 else m2).
Proof. destruct b; auto. Qed.

Create HintDb quiet.
#[local] Hint Resolve quiet_of_res quiet_of_run quiet_gret quiet_stop
  quiet_error quiet_gbind quiet_if : quiet.

Lemma read_and_draw_quiet (fuel : nat) (f : Generator.form) :
  quiet (Generator.read_and_draw fuel f).
Proof.
  unfold Generator.read_and_draw.
  repeat (first [ apply quiet_gbind; [ | intros ? ]
                | apply quiet_if
                | solve [auto with quiet] ]); cbv zeta;
  repeat (first [ apply quiet_gbind; [ | intros ? ]
                | apply quiet_if
                | solve [auto with quiet] ]).
Qed.

End Handler.

Section Exporting.
Context {F : Type} {num : PyNum F}.

Lemma quiet_no_info {A : Type} (m : gui F A) (title : string)
    (lines : list string) :
  quiet m -> ~ In (ShowInfo title lines) (fst m).
Proof.
  unfold quiet. intros Hq Hin. rewrite Forall_forall in Hq.
  exact (Hq _ Hin).
Qed.

Ltac in_cases H :=
  repeat (destruct H as [H | H]; [try discriminate H | ]);
  try contradiction.

(** Once a base name is given, the second half first writes the PNG; the
    summary it may end with names the PNG exactly when PNG was selected. *)
Lemma export_trace (fuel : nat) (f : Generator.form) (e : Generator.env)
    (r : Generator.request) (tr : list (event F)) (out : unit + stop) :
  Generator.export fuel f e r = (tr, out) ->
  tr = [] \/
  exists rest,
    tr = Save (png_path_of e) (PNG (Generator.req_img r)) :: rest /\
    forall (title : string) (lines : list string),
      In (ShowInfo title lines) rest ->
      (In (String.append "PNG: " (png_path_of e)) lines
       <-> Generator.var_out_png f = true).
Proof.
  unfold Generator.export. cbv zeta. fold (png_path_of e).
  destruct (String.eqb _ "").
  { intros H. injection H as <- _. left. reflexivity. }
  intros H. right.
  destruct (Generator.var_out_png f), (Generator.var_out_pdf f),
    (Generator.var_out_svg f), (Generator.var_out_docx f),
    (Generator.docx_installed e);
    cbn [negb] in H;
    try (destruct (Generator.req_joint r) as [fw st | n rv];
         [destruct (Generator.save_box_svg fuel _ _ fw st) as [[doc | ex] | ]
         |destruct (Generator.save_dovetail_svg _ _ n rv) as [doc | ex]]);
    cbn in H; injection H as <- _;
    (eexists; split; [reflexivity | ]);
    intros title lines Hin; cbn in Hin; in_cases Hin;
    try (injection Hin as _ <-);
    (split; [intros Hl; try reflexivity; cbn in Hl; in_cases Hl
            | intros Ht; try discriminate Ht; cbn; auto]).
Qed.

End Exporting.

(** C10.  Whenever the combined generator reports success (the summary
    "Templates generated" is shown), the master image has been written to
    [base + ".png"], whether or not PNG was among the selected formats;
    the selection only decides whether the summary names it. *)
Theorem png_always_written {F : Type} {num : PyNum F} (fuel : nat)
    (f : Generator.form) (e : Generator.env) (tr : list (event F))
    (lines : list string) :
  Generator.generate_templates fuel f e = Some tr ->
  In (ShowInfo "Templates generated" lines) tr ->
  (exists img, In (Save (png_path_of e) (PNG img)) tr) /\
  (In (String.append "PNG: " (png_path_of e)) lines
   <-> Generator.var_out_png f = true).
Proof.
  unfold Generator.generate_templates, Generator.generate_templates_body.
  intros Hrun Hin.
  pose proof (read_and_draw_quiet fuel f) as Hq.
  pose proof (@quiet_no_info F _ _ "Templates generated" lines Hq) as Hno.
  destruct (Generator.read_and_draw fuel f) as [tr1 [r | s]];
    cbn [fst] in Hno; unfold gbind in Hrun.
  - destruct (Generator.export fuel f e r) as [tr2 out] eqn:Hex.
    assert (Hin2 : In (ShowInfo "Templates generated" lines) tr2).
    { unfold try_except in Hrun.
      destruct out as [[] | [ex | | ]]; try discriminate Hrun;
        injection Hrun as <-; rewrite ?in_app_iff in Hin;
        repeat (destruct Hin as [Hin | Hin]); try contradiction;
        try assumption; destruct (is_ValueError ex); discriminate Hin. }
    assert (Hsub : forall ev, In ev tr2 -> In ev tr).
    { intros ev Hev. unfold try_except in Hrun.
      destruct out as [[] | [ex | | ]]; try discriminate Hrun;
        injection Hrun as <-; rewrite ?in_app_iff; auto. }
    destruct (export_trace _ _ _ _ Hex) as [-> | (rest & -> & Hlines)];
      [contradiction | ].
    split.
    + exists (Generator.req_img r). apply Hsub. left. reflexivity.
    + destruct Hin2 as [Hin2 | Hin2]; [discriminate Hin2 | ].
      exact (Hlines _ _ Hin2).
  - exfalso. unfold try_except in Hrun.
    destruct s as [ex | | ]; try discriminate Hrun;
      injection Hrun as <-; rewrite ?in_app_iff in Hin;
      repeat (destruct Hin as [Hin | Hin]); try contradiction;
      destruct (is_ValueError ex); discriminate Hin.
Qed.

Lemma png_always_written_witness :
  (exists img, In (Save "template.png" (PNG img)) svg_only_run) /\
  (In "PNG: template.png" ["Generated:"; "SVG (LightBurn): template.svg"]
   <-> false = true).
Proof.
  apply (@png_always_written F64.float F64.num 30 svg_only_form generator_env
           svg_only_run ["Generated:"; "SVG (LightBurn): template.svg"]).
  - vm_compute. reflexivity.
  - vm_compute. right. right. left. reflexivity.
Defined.

(** ** The ratio that is not positive *)



(** C6 (the code diverges from the claim).  [Dovetail-Joint.py] never
    checks the ratio: with the ratio "-6" the request of the opening form
    is drawn and saved, and with "0" it fails in the middle of the layout,
    with the division by zero shown as a general error; the combined
    generator turns both down as invalid input. *)
Theorem dovetail_standalone_accepts_nonpositive_ratio :
  (exists img : image F64.float,
     DovetailJoint.generate_template (num := F64.num) 30 (dovetail_form "-6")
       dovetail_env
     = Some [Save "DovetailTemplate.png" (PNG img);
             ShowInfo "Done" ["Template saved to:"; "DovetailTemplate.png"]]) /\
  DovetailJoint.generate_template (num := F64.num) 30 (dovetail_form "0")
    dovetail_env
  = Some [ShowError "Error" (ErrorOccurred ZeroDivisionError)] /\
  Generator.generate_templates (num := F64.num) 30
    (generator_dovetail_form "-6") generator_env
  = Some [ShowError "Invalid input" (Msg "Dovetail ratio must be > 0.")] /\
  Generator.generate_templates (num := F64.num) 30
    (generator_dovetail_form "0") generator_env
  = Some [ShowError "Invalid input" (Msg "Dovetail ratio must be > 0.")].
Proof.
  split; [eexists; vm_compute; reflexivity | ].
  repeat split; vm_compute; reflexivity.
Qed.

(** ** Dovetails: the image *)




Section ImagePolygons.
Context {F : Type} {num : PyNum F}.





End ImagePolygons.

Section ExactImage.
Local Open Scope Q_scope.





End ExactImage.




(** * Further properties of the programs *)

(** ** Box joints: the fingers on the image *)

Lemma filled_rects_app {F : Type} (a b : list (shape F)) :
  filled_rects (a ++ b) = filled_rects a ++ filled_rects b.
Proof. apply flat_map_app. Qed.

Lemma filled_rects_marks {F : Type} (marks : list (shape F)) :
  Forall is_mark marks -> filled_rects marks = [].
Proof.
  induction 1 as [ | s marks Hs _ IH]; [reflexivity | ].
  destruct s; try contradiction; exact IH.
Qed.

Lemma fingers_in_order_weaken (hi top_y bottom_y : Z)
    (rects : list (Z * Z * Z * Z)) (lo lo' : Z) :
  lo' <= lo -> fingers_in_order lo hi top_y bottom_y rects ->
  fingers_in_order lo' hi top_y bottom_y rects.
Proof.
  destruct rects as [ | [[[x0 y0] x1] y1] rest]; [trivial | ].
  simpl. intros Hle (H1 & H2). split; [lia | exact H2].
Qed.

Lemma laid_out_in_order {F : Type} (finger_width_px end_x top_y bottom_y : Z)
    (segs : list segment) :
  1 <= finger_width_px ->
  forall (x : Z) (solid : bool),
    laid_out finger_width_px end_x x solid segs ->
    fingers_in_order x end_x top_y bottom_y
      (filled_rects
         (map (finger_rect (F := F) top_y bottom_y) (filter seg_solid segs))).
Proof.
  intros Hfw. induction segs as [ | s rest IH]; intros x solid H.
  - exact I.
  - destruct H as (Hlt & Hx & Hw & Hs & Hrest).
    specialize (IH _ _ Hrest). cbn [filter].
    destruct (seg_solid s).
    + cbn. rewrite Hx. repeat split; try lia. exact IH.
    + apply fingers_in_order_weaken with (x + seg_width s); [lia | exact IH].
Qed.

Section FingerLoop.
Context {F : Type}.
Variables finger_width_px left_x right_x top_y bottom_y : Z.
Variable start : bool.

Lemma draw_fingers_more_fuel (fuel fuel' : nat) (canvas : list (shape F))
    (r : res (list (shape F))) :
  draw_fingers fuel finger_width_px left_x right_x top_y bottom_y start canvas
  = Some r -> (fuel <= fuel')%nat ->
  draw_fingers fuel' finger_width_px left_x right_x top_y bottom_y start canvas
  = Some r.
Proof.
  unfold draw_fingers. intros H Hle.
  destruct (while _ _ fuel _) as [r0 | ] eqn:Hw; [ | discriminate H].
  rewrite (@while_more_fuel _ _ _ _ _ _ _ Hw Hle). exact H.
Qed.

(** With fingers of no pixel, or of a negative count, the loop never
    reaches the right edge. *)
Lemma fingers_never_finish (fuel : nat) (s : finger_state F) :
  finger_width_px <= 0 -> fs_x s < right_x ->
  while (finger_cond right_x)
    (finger_body finger_width_px right_x top_y bottom_y) fuel s = None.
Proof.
  intros Hfw Hs.
  apply while_diverges with (I := fun st : finger_state F => fs_x st < right_x);
    [ | exact Hs].
  intros st Hst. split.
  - apply Z.ltb_lt. exact Hst.
  - eexists. split; [reflexivity | ]. simpl. lia.
Qed.

(** Whenever the loop stops, what it has drawn are fingers from the top to
    the bottom of the board, from left to right between its edges. *)
Lemma draw_fingers_in_order (fuel : nat) (canvas out : list (shape F)) :
  draw_fingers fuel finger_width_px left_x right_x top_y bottom_y start canvas
  = Some (Ok out) ->
  exists fingers : list (shape F),
    out = canvas ++ fingers /\
    Forall (fun s => match s with FilledRect _ _ _ _ => True | _ => False end)
      fingers /\
    fingers_in_order left_x right_x top_y bottom_y (filled_rects fingers).
Proof.
  intros H.
  destruct (Z_le_gt_dec 1 finger_width_px) as [Hfw | Hfw].
  - set (fuel' := Nat.max fuel (Z.to_nat (right_x - left_x))).
    apply draw_fingers_more_fuel with (fuel' := fuel') in H; [ | lia].
    destruct (@fingers_finish F finger_width_px right_x top_y bottom_y Hfw fuel'
                {| fs_x := left_x; fs_draw_finger := start;
                   fs_drawn := canvas |})
      as (s1 & Hrun & Hlaid & _ & Hdrawn); [simpl; lia | ].
    cbv zeta in *. simpl in Hlaid, Hdrawn.
    unfold draw_fingers in H. rewrite Hrun in H. cbn [run_bind] in H.
    injection H as <-. rewrite Hdrawn.
    eexists. split; [reflexivity | ]. split.
    + apply Forall_forall. intros s Hs. apply in_map_iff in Hs.
      destruct Hs as (sg & <- & _). exact I.
    + eapply laid_out_in_order; [exact Hfw | exact Hlaid].
  - unfold draw_fingers in H.
    destruct (Z_lt_ge_dec left_x right_x) as [Hlt | Hge].
    + rewrite fingers_never_finish in H by (simpl; lia). discriminate H.
    + rewrite while_exit in H by (apply Z.ltb_ge; simpl; lia).
      cbn [run_bind fs_drawn] in H. injection H as <-.
      exists []. rewrite app_nil_r. repeat split. constructor.
Qed.

End FingerLoop.

Section RulerMarks.
Context {F : Type} {num : PyNum F}.

Lemma tick_marks_are_marks (mm_to_px : F) (left_x ruler_top_y mm_val : Z)
    (marks : list (shape F)) :
  tick_marks mm_to_px left_x ruler_top_y mm_val = Ok marks ->
  Forall is_mark marks.
Proof.
  unfold tick_marks. intros H.
  destruct (of_int mm_val) as [m | e]; [ | discriminate H].
  cbn [rbind] in H.
  destruct (round_int _) as [r | e]; [ | discriminate H].
  cbn [rbind] in H. injection H as <-. repeat constructor.
Qed.

(** The ruler loop only adds lines and texts. *)
Lemma ruler_loop_marks (ruler_length_mm mm_to_px : F)
    (left_x ruler_top_y : Z) (fuel : nat) :
  forall s s' : ruler_state F,
    while (ruler_cond ruler_length_mm)
      (ruler_body mm_to_px left_x ruler_top_y) fuel s = Some (Ok s') ->
    exists marks, rs_drawn s' = rs_drawn s ++ marks /\ Forall is_mark marks.
Proof.
  induction fuel as [ | n IH]; intros s s' H; simpl in H;
    destruct (ruler_cond ruler_length_mm s); try discriminate H;
    try (injection H as <-; exists []; rewrite app_nil_r; split;
         [reflexivity | constructor]).
  unfold ruler_body at 1 in H. cbv zeta in H.
  destruct (tick_marks mm_to_px left_x ruler_top_y (rs_mm_val s))
    as [marks | e] eqn:Hm; [ | discriminate H].
  cbn [rbind] in H. destruct (IH _ _ H) as (marks' & Heq & Hall).
  cbn [rs_drawn] in Heq. exists (marks ++ marks').
  rewrite app_assoc. split; [exact Heq | ].
  apply Forall_app. split; [ | exact Hall].
  exact (tick_marks_are_marks _ _ _ _ Hm).
Qed.

Lemma draw_ruler_marks (fuel : nat) (board_width_mm mm_to_px : F)
    (left_x bottom_y : Z) (canvas out : list (shape F)) :
  draw_ruler fuel board_width_mm mm_to_px left_x bottom_y canvas
  = Some (Ok out) ->
  exists marks, out = canvas ++ marks /\ Forall is_mark marks.
Proof.
  unfold draw_ruler, lift. cbv zeta. intros H.
  destruct (to_px _ _) as [len | e]; [ | discriminate H].
  cbn [run_bind] in H.
  destruct (while _ _ fuel _) as [[s' | e] | ] eqn:Hw; try discriminate H.
  cbn [run_bind] in H. injection H as <-.
  destruct (ruler_loop_marks _ _ _ _ _ _ Hw) as (marks & Heq & Hall).
  cbn [rs_drawn] in Heq. eexists. rewrite Heq, <- app_assoc.
  split; [reflexivity | ].
  apply Forall_app. split; [repeat constructor | exact Hall].
Qed.

Lemma box_drawing_same :
  @BoxJoint.drawing F num = @Generator.generate_box_image F num.
Proof. reflexivity. Qed.

End RulerMarks.

(** X2.  Whenever the box image is drawn, by either program and in any
    arithmetic, its filled rectangles are fingers of the full height of the
    board outline that stand from left to right between the edges of the
    outline: none is empty, none reaches over an edge, and none starts
    before the one before it ends. *)
Theorem box_fingers_stand_inside_the_outline {F : Type} {num : PyNum F}
    (fuel : nat) (board_width_mm board_height_mm finger_width_mm : F)
    (dpi : Z) (start_with_finger : bool) (img : image F) :
  Generator.generate_box_image fuel board_width_mm board_height_mm
    finger_width_mm dpi start_with_finger = Some (Ok img) ->
  BoxJoint.drawing fuel board_width_mm board_height_mm finger_width_mm dpi
    start_with_finger = Some (Ok img) /\
  exists left_x top_y right_x bottom_y : Z,
    In (Outline left_x top_y right_x bottom_y) (drawn img) /\
    fingers_in_order left_x right_x top_y bottom_y (filled_rects (drawn img)).
Proof.
  intros H. split; [rewrite box_drawing_same; exact H | ].
  unfold Generator.generate_box_image, lift in H.
  destruct (mm_to_px_of dpi) as [c | e]; [ | discriminate H].
  cbn [run_bind] in H.
  destruct (to_px (lit 5 0) c) as [margin_px | e]; [ | discriminate H].
  cbn [run_bind] in H.
  destruct (to_px board_width_mm c) as [bw | e]; [ | discriminate H].
  cbn [run_bind] in H.
  destruct (to_px board_height_mm c) as [bh | e]; [ | discriminate H].
  cbn [run_bind] in H. cbv zeta in H.
  destruct (to_px finger_width_mm c) as [fw | e]; [ | discriminate H].
  cbn [run_bind] in H.
  destruct (draw_fingers _ _ _ _ _ _ _ _) as [[c1 | e] | ] eqn:Hf;
    try discriminate H.
  cbn [run_bind] in H.
  destruct (draw_ruler _ _ _ _ _ _) as [[out | e] | ] eqn:Hr;
    try discriminate H.
  cbn [run_bind] in H. injection H as <-. cbn [drawn].
  destruct (draw_fingers_in_order _ _ _ _ _ _ _ _ Hf)
    as (fingers & -> & _ & Horder).
  destruct (draw_ruler_marks _ _ _ _ _ _ Hr) as (marks & -> & Hmarks).
  exists margin_px, (margin_px + 50), (margin_px + bw), (margin_px + 50 + bh).
  split.
  - rewrite !in_app_iff. left. left. right. left. reflexivity.
  - rewrite !filled_rects_app, (filled_rects_marks Hmarks), app_nil_r.
    exact Horder.
Qed.

Lemma box_fingers_stand_inside_the_outline_witness :
  exists (img : image F64.float) (left_x top_y right_x bottom_y : Z),
    Generator.generate_box_image (num := F64.num) 30 (lit 100 0) (lit 40 0)
      (lit 10 0) 300 true = Some (Ok img) /\
    In (Outline left_x top_y right_x bottom_y) (drawn img) /\
    fingers_in_order left_x right_x top_y bottom_y (filled_rects (drawn img)).
Proof.
  assert (H : exists img : image F64.float,
            Generator.generate_box_image (num := F64.num) 30 (lit 100 0)
              (lit 40 0) (lit 10 0) 300 true = Some (Ok img))
    by (eexists; vm_compute; reflexivity).
  destruct H as [img H]. exists img.
  destruct (@box_fingers_stand_inside_the_outline _ _ _ _ _ _ _ _ _ H)
    as (_ & l & t & r & b & H1 & H2).
  exists l, t, r, b. repeat split; assumption.
Defined.

(** ** The fingers of the vector document *)

Section ExactSvgFingers.
Local Open Scope Q_scope.




Variables (finger_width_mm width height : Q).
Hypothesis Hfw : 0 < finger_width_mm.


End ExactSvgFingers.



(** ** Box joints: when the image is drawn *)



Section ExactRounding.
Local Open Scope Q_scope.



End ExactRounding.



(** ** The handlers of the two single-joint programs *)

(** No event of a finished branch is the one looked for. *)
Ltac no_such_event H :=
  repeat (destruct H as [H | H];
          [try discriminate H;
           try (match type of H with
                | context [is_ValueError ?e] => destruct (is_ValueError e)
                end; discriminate H) | ]);
  try contradiction.

Ltac finished Hrun Hin :=
  cbn in Hrun; injection Hrun as <-; cbn in Hin; no_such_event Hin.





(** X10.  In any arithmetic, [Dovetail-Joint.py] never shows "Number of
    tails must be at least 1.": a number of tails below one has already
    been turned down by the check that all values are above zero. *)
Theorem dovetail_tails_message_is_never_shown
    {F : Type} {num : PyNum F} (fuel : nat) (f : DovetailJoint.form)
    (e : DovetailJoint.env) (tr : list (event F)) :
  DovetailJoint.generate_template fuel f e = Some tr ->
  ~ In (ShowError "Invalid input" (Msg "Number of tails must be at least 1."))
      tr.
Proof.
  unfold DovetailJoint.generate_template,
    DovetailJoint.generate_template_body.
  intros Hrun Hin.
  destruct (py_float (DovetailJoint.entry_board_width f)) as [bw | ex];
    [rewrite gbind_ok in Hrun | finished Hrun Hin].
  destruct (py_float (DovetailJoint.entry_board_height f)) as [bh | ex];
    [rewrite gbind_ok in Hrun | finished Hrun Hin].
  destruct (py_int (DovetailJoint.entry_tails f)) as [n | ex];
    [rewrite gbind_ok in Hrun | finished Hrun Hin].
  destruct (py_int (DovetailJoint.entry_dpi f)) as [dpi | ex];
    [rewrite gbind_ok in Hrun | finished Hrun Hin].
  destruct (DovetailJoint.parse_ratio (DovetailJoint.entry_ratio f))
    as [ratio | ex];
    [rewrite gbind_ok in Hrun | finished Hrun Hin].
  destruct (fleb bw (lit 0 0) || fleb bh (lit 0 0) || (n <=? 0) || (dpi <=? 0))
    eqn:Hpos; [finished Hrun Hin | ].
  apply orb_false_iff in Hpos. destruct Hpos as [Hpos _].
  apply orb_false_iff in Hpos. destruct Hpos as [_ Hn0].
  replace (n <? 1) with false in Hrun by (symmetry; apply Z.ltb_ge; lia).
  cbv zeta in Hrun.
  destruct (String.eqb (DovetailJoint.asksaveasfilename e) "");
    [finished Hrun Hin | ].
  destruct (DovetailJoint.drawing fuel bw bh n ratio dpi) as [[img | ex] | ];
    [rewrite gbind_done in Hrun | finished Hrun Hin | discriminate Hrun].
  destruct (DovetailJoint.os_name_nt e); finished Hrun Hin.
Qed.

Lemma dovetail_tails_message_is_never_shown_witness :
  ~ In (ShowError (F := F64.float) "Invalid input"
          (Msg "Number of tails must be at least 1."))
      [ShowError "Invalid input"
         (Msg "All numeric values must be greater than zero.")].
Proof.
  apply (@dovetail_tails_message_is_never_shown F64.float F64.num 30
           {| DovetailJoint.entry_board_width := "100";
              DovetailJoint.entry_board_height := "40";
              DovetailJoint.entry_tails := "0";
              DovetailJoint.entry_ratio := "1:6";
              DovetailJoint.entry_dpi := "300" |} dovetail_env).
  vm_compute. reflexivity.
Defined.

(** X11.  In any arithmetic, when the save dialog is cancelled the two
    single-joint programs return, whatever the inputs and the fuel, having
    shown at most one error box and written nothing: they ask for the path
    before they draw. *)
Theorem cancelled_dialog_ends_the_single_joint_programs
    {F : Type} {num : PyNum F} (fuel : nat) (fb : BoxJoint.form)
    (eb : BoxJoint.env) (fd : DovetailJoint.form) (ed : DovetailJoint.env) :
  BoxJoint.asksaveasfilename eb = "" ->
  DovetailJoint.asksaveasfilename ed = "" ->
  (exists tr : list (event F),
     BoxJoint.generate_template fuel fb eb = Some tr /\
     Forall is_ShowError tr /\ (List.length tr <= 1)%nat) /\
  (exists tr : list (event F),
     DovetailJoint.generate_template fuel fd ed = Some tr /\
     Forall is_ShowError tr /\ (List.length tr <= 1)%nat).
Proof.
  intros Hb Hd. split.
  - unfold BoxJoint.generate_template, BoxJoint.generate_template_body.
    rewrite Hb.
    destruct (py_float (BoxJoint.entry_board_width fb)) as [bw | ex];
      [rewrite gbind_ok | ].
    2:{ eexists. split; [reflexivity | ]. cbn. destruct (is_ValueError ex);
        repeat constructor. }
    destruct (py_float (BoxJoint.entry_finger_width fb)) as [fw | ex];
      [rewrite gbind_ok | ].
    2:{ eexists. split; [reflexivity | ]. cbn. destruct (is_ValueError ex);
        repeat constructor. }
    destruct (py_float (BoxJoint.entry_board_height fb)) as [bh | ex];
      [rewrite gbind_ok | ].
    2:{ eexists. split; [reflexivity | ]. cbn. destruct (is_ValueError ex);
        repeat constructor. }
    destruct (py_int (BoxJoint.entry_dpi fb)) as [dpi | ex];
      [rewrite gbind_ok | ].
    2:{ eexists. split; [reflexivity | ]. cbn. destruct (is_ValueError ex);
        repeat constructor. }
    cbv zeta.
    destruct (_ || _);
      [eexists; split; [reflexivity | cbn; repeat constructor] | ].
    destruct (fltb bw fw);
      eexists; (split; [reflexivity | cbn; repeat constructor]).
  - unfold DovetailJoint.generate_template,
      DovetailJoint.generate_template_body.
    rewrite Hd.
    destruct (py_float (DovetailJoint.entry_board_width fd)) as [bw | ex];
      [rewrite gbind_ok | ].
    2:{ eexists. split; [reflexivity | ]. cbn. destruct (is_ValueError ex);
        repeat constructor. }
    destruct (py_float (DovetailJoint.entry_board_height fd)) as [bh | ex];
      [rewrite gbind_ok | ].
    2:{ eexists. split; [reflexivity | ]. cbn. destruct (is_ValueError ex);
        repeat constructor. }
    destruct (py_int (DovetailJoint.entry_tails fd)) as [n | ex];
      [rewrite gbind_ok | ].
    2:{ eexists. split; [reflexivity | ]. cbn. destruct (is_ValueError ex);
        repeat constructor. }
    destruct (py_int (DovetailJoint.entry_dpi fd)) as [dpi | ex];
      [rewrite gbind_ok | ].
    2:{ eexists. split; [reflexivity | ]. cbn. destruct (is_ValueError ex);
        repeat constructor. }
    destruct (DovetailJoint.parse_ratio (DovetailJoint.entry_ratio fd))
      as [ratio | ex]; [rewrite gbind_ok | ].
    2:{ eexists. split; [reflexivity | ]. cbn. destruct (is_ValueError ex);
        repeat constructor. }
    destruct (_ || _);
      [eexists; split; [reflexivity | cbn; repeat constructor] | ].
    destruct (n <? 1);
      eexists; (split; [reflexivity | cbn; repeat constructor]).
Qed.

Lemma cancelled_dialog_ends_the_single_joint_programs_witness :
  (exists tr : list (event F64.float),
     BoxJoint.generate_template (num := F64.num) 0 (box_form "0.01")
       {| BoxJoint.asksaveasfilename := ""; BoxJoint.os_name_nt := true |}
     = Some tr /\
     Forall is_ShowError tr /\ (List.length tr <= 1)%nat) /\
  (exists tr : list (event F64.float),
     DovetailJoint.generate_template (num := F64.num) 0 (dovetail_form "0")
       {| DovetailJoint.asksaveasfilename := "";
          DovetailJoint.os_name_nt := true |}
     = Some tr /\
     Forall is_ShowError tr /\ (List.length tr <= 1)%nat).
Proof.
  apply (@cancelled_dialog_ends_the_single_joint_programs F64.float F64.num
           0%nat (box_form "0.01")
           {| BoxJoint.asksaveasfilename := ""; BoxJoint.os_name_nt := true |}
           (dovetail_form "0")
           {| DovetailJoint.asksaveasfilename := "";
              DovetailJoint.os_name_nt := true |});
    reflexivity.
Defined.

(** ** The handler of the combined generator, by its two halves *)

Section GeneratorHandler.
Context {F : Type} {num : PyNum F}.

(** The first half shows nothing, unless it turns the request down with
    one error box and returns. *)
Lemma read_and_draw_outcome (fuel : nat) (f : Generator.form)
    (tr : list (event F)) (out : Generator.request + stop) :
  Generator.read_and_draw fuel f = (tr, out) ->
  (tr = [] /\ out <> inr Return) \/
  (exists (title : string) (m : message),
     tr = [ShowError title m] /\ out = inr Return).
Proof.
  unfold Generator.read_and_draw.
  destruct (py_float (Generator.entry_board_width f)) as [bw | ex];
    [rewrite gbind_ok
    | intros H; injection H as <- <-; left; split; [reflexivity | discriminate]].
  destruct (py_float (Generator.entry_height f)) as [bh | ex];
    [rewrite gbind_ok
    | intros H; injection H as <- <-; left; split; [reflexivity | discriminate]].
  destruct (py_int (Generator.entry_dpi f)) as [dpi | ex];
    [rewrite gbind_ok
    | intros H; injection H as <- <-; left; split; [reflexivity | discriminate]].
  destruct (_ || _);
    [intros H; injection H as <- <-; right; eauto | ].
  cbv zeta.
  destruct (negb _);
    [intros H; injection H as <- <-; right; eauto | ].
  destruct (String.eqb _ "box").
  - destruct (py_float (Generator.entry_finger_width f)) as [fw | ex];
      [rewrite gbind_ok
      | intros H; injection H as <- <-; left; split;
        [reflexivity | discriminate]].
    destruct (_ || _);
      [intros H; injection H as <- <-; right; eauto | ].
    destruct (Generator.generate_box_image _ _ _ _ _ _) as [[img | ex] | ];
      [rewrite gbind_done | | ];
      intros H; injection H as <- <-; left; split;
      solve [reflexivity | discriminate].
  - destruct (py_int (Generator.entry_tails f)) as [n | ex];
      [rewrite gbind_ok
      | intros H; injection H as <- <-; left; split;
        [reflexivity | discriminate]].
    destruct (n <? 1);
      [intros H; injection H as <- <-; right; eauto | ].
    destruct (Generator.parse_ratio (Generator.entry_ratio f)) as [ratio | ex];
      [rewrite gbind_ok
      | intros H; injection H as <- <-; left; split;
        [reflexivity | discriminate]].
    destruct (fleb ratio (lit 0 0));
      [intros H; injection H as <- <-; right; eauto | ].
    destruct (Generator.generate_dovetail_image _ _ _ _ _ _)
      as [[img | ex] | ];
      [rewrite gbind_done | | ];
      intros H; injection H as <- <-; left; split;
      solve [reflexivity | discriminate].
Qed.

(** What the first half has established when it hands a request on. *)
Lemma read_and_draw_request (fuel : nat) (f : Generator.form)
    (tr : list (event F)) (r : Generator.request) :
  Generator.read_and_draw fuel f = (tr, inl r) ->
  tr = [] /\
  py_float (Generator.entry_board_width f)
  = Ok (Generator.req_board_width_mm r) /\
  py_float (Generator.entry_height f) = Ok (Generator.req_board_height_mm r) /\
  py_int (Generator.entry_dpi f) = Ok (Generator.req_dpi r) /\
  fleb (Generator.req_board_width_mm r) (lit 0 0) = false /\
  fleb (Generator.req_board_height_mm r) (lit 0 0) = false /\
  0 < Generator.req_dpi r /\
  Generator.var_out_png f || Generator.var_out_svg f
  || Generator.var_out_pdf f || Generator.var_out_docx f = true /\
  if String.eqb (Generator.joint_type_var f) "box" then
    exists finger_width_mm : F,
      py_float (Generator.entry_finger_width f) = Ok finger_width_mm /\
      fleb finger_width_mm (lit 0 0) = false /\
      fltb (Generator.req_board_width_mm r) finger_width_mm = false /\
      Generator.req_joint r
      = Generator.BoxParams finger_width_mm (Generator.var_start_with_finger f) /\
      Generator.generate_box_image fuel (Generator.req_board_width_mm r)
        (Generator.req_board_height_mm r) finger_width_mm (Generator.req_dpi r)
        (Generator.var_start_with_finger f)
      = Some (Ok (Generator.req_img r))
  else
    exists (num_tails : Z) (ratio_val : F),
      py_int (Generator.entry_tails f) = Ok num_tails /\
      1 <= num_tails /\
      Generator.parse_ratio (Generator.entry_ratio f) = Ok ratio_val /\
      fleb ratio_val (lit 0 0) = false /\
      Generator.req_joint r = Generator.DovetailParams num_tails ratio_val /\
      Generator.generate_dovetail_image fuel (Generator.req_board_width_mm r)
        (Generator.req_board_height_mm r) num_tails ratio_val
        (Generator.req_dpi r)
      = Some (Ok (Generator.req_img r)).
Proof.
  unfold Generator.read_and_draw.
  destruct (py_float (Generator.entry_board_width f)) as [bw | ex];
    [rewrite gbind_ok | intros H; discriminate H].
  destruct (py_float (Generator.entry_height f)) as [bh | ex];
    [rewrite gbind_ok | intros H; discriminate H].
  destruct (py_int (Generator.entry_dpi f)) as [dpi | ex];
    [rewrite gbind_ok | intros H; discriminate H].
  destruct (fleb bw (lit 0 0) || fleb bh (lit 0 0) || (dpi <=? 0)) eqn:Hpos;
    [intros H; discriminate H | ].
  apply orb_false_iff in Hpos. destruct Hpos as [Hpos Hd0].
  apply orb_false_iff in Hpos. destruct Hpos as [Hw0 Hh0].
  apply Z.leb_gt in Hd0.
  cbv zeta.
  destruct (Generator.var_out_png f || Generator.var_out_svg f
            || Generator.var_out_pdf f || Generator.var_out_docx f) eqn:Hsel;
    cbn [negb]; [ | intros H; discriminate H].
  destruct (String.eqb _ "box").
  - destruct (py_float (Generator.entry_finger_width f)) as [fw | ex];
      [rewrite gbind_ok | intros H; discriminate H].
    destruct (fleb fw (lit 0 0) || fltb bw fw) eqn:Hfw;
      [intros H; discriminate H | ].
    apply orb_false_iff in Hfw. destruct Hfw as [Hf0 Hwide].
    destruct (Generator.generate_box_image _ _ _ _ _ _) as [[img | ex] | ]
      eqn:Himg; [rewrite gbind_done | | ]; intros H; try discriminate H.
    injection H as <- <-. cbn.
    repeat (split; [first [reflexivity | assumption] | ]).
    exists fw. repeat split; assumption.
  - destruct (py_int (Generator.entry_tails f)) as [n | ex];
      [rewrite gbind_ok | intros H; discriminate H].
    destruct (n <? 1) eqn:Hn; [intros H; discriminate H | ].
    apply Z.ltb_ge in Hn.
    destruct (Generator.parse_ratio (Generator.entry_ratio f)) as [ratio | ex];
      [rewrite gbind_ok | intros H; discriminate H].
    destruct (fleb ratio (lit 0 0)) eqn:Hr; [intros H; discriminate H | ].
    destruct (Generator.generate_dovetail_image _ _ _ _ _ _)
      as [[img | ex] | ] eqn:Himg; [rewrite gbind_done | | ];
      intros H; try discriminate H.
    injection H as <- <-. cbn.
    repeat (split; [first [reflexivity | assumption] | ]).
    exists n, ratio. repeat split; assumption.
Qed.

End GeneratorHandler.

Section ExportOutcome.
Context {F : Type} {num : PyNum F}.

(** How the second half ends: with the summary after the files of the
    selected formats; at once when the dialog was cancelled; or in the
    middle, after the master image, when the vector document fails or
    [python-docx] is missing. *)
Lemma export_outcome (fuel : nat) (f : Generator.form) (e : Generator.env)
    (r : Generator.request) (tr : list (event F)) (out : unit + stop) :
  Generator.export fuel f e r = (tr, out) ->
  match out with
  | inl _ =>
      Generator.asksaveasfilename e <> "" /\
      (Generator.var_out_docx f = true -> Generator.docx_installed e = true) /\
      exists rest : list (event F),
        tr = Save (String.append (base_of e) ".png") (PNG (Generator.req_img r))
             :: rest
             ++ [ShowInfo "Templates generated" (summary f (base_of e))] /\
        Forall is_Save rest /\
        written_paths rest = map snd (optional_outputs f (base_of e))
  | inr Return => tr = [] /\ Generator.asksaveasfilename e = ""
  | inr s =>
      Generator.asksaveasfilename e <> "" /\
      (Generator.var_out_svg f = true \/
       Generator.var_out_docx f = true /\ Generator.docx_installed e = false
       /\ s = Raise docx_missing) /\
      exists rest : list (event F),
        tr = Save (String.append (base_of e) ".png") (PNG (Generator.req_img r))
             :: rest /\
        Forall is_Save rest /\
        forall (p : string) (d : list (docx_item F)), ~ In (Save p (DOCX d)) tr
  end.
Proof.
  unfold Generator.export. cbv zeta. fold (base_of e).
  set (base := base_of e).
  destruct (String.eqb (Generator.asksaveasfilename e) "") eqn:Hpath.
  { intros H. injection H as <- <-. split; [reflexivity | ].
    apply String.eqb_eq. exact Hpath. }
  apply String.eqb_neq in Hpath.
  unfold summary, optional_outputs.
  intros H.
  destruct (Generator.var_out_png f), (Generator.var_out_pdf f),
    (Generator.var_out_svg f), (Generator.var_out_docx f),
    (Generator.docx_installed e);
    cbn [negb] in H;
    try (destruct (Generator.req_joint r) as [fw st | n rv];
         [destruct (Generator.save_box_svg fuel _ _ fw st) as [[doc | ex] | ]
         |destruct (Generator.save_dovetail_svg _ _ n rv) as [doc | ex]]);
    cbn in H; injection H as <- <-;
    (split; [exact Hpath | ]);
    (split; [first [ intros _; reflexivity | intros Hd; discriminate Hd
                   | left; reflexivity
                   | right; repeat split; reflexivity ] | ]);
    (lazymatch goal with
     | |- exists rest, ?l = _ :: rest ++ _ /\ _ =>
         exists (removelast (List.tl l))
     | |- exists rest, ?l = _ :: rest /\ _ => exists (List.tl l)
     end; split; [reflexivity | ]);
    first [ split; [repeat constructor | reflexivity]
          | split; [repeat constructor | ];
            intros p d Hin; cbn in Hin;
            repeat (destruct Hin as [Hin | Hin]; [discriminate Hin | ]);
            contradiction ].
Qed.

End ExportOutcome.

Section GeneratorRuns.
Context {F : Type} {num : PyNum F}.

(** A run of the handler that returns either stopped in its first half,
    with at most one error box, or went through both halves. *)
Lemma generate_templates_trace (fuel : nat) (f : Generator.form)
    (e : Generator.env) (tr : list (event F)) :
  Generator.generate_templates fuel f e = Some tr ->
  (Forall is_ShowError tr /\ (List.length tr <= 1)%nat) \/
  exists (r : Generator.request (F := F)) (tr2 : list (event F))
         (out : unit + stop),
    Generator.read_and_draw fuel f = ([], inl r) /\
    Generator.export fuel f e r = (tr2, out) /\
    match out with
    | inl _ | inr Return => tr = tr2
    | inr (Raise ex) => tr = tr2 ++ [error_box ex]
    | inr Hang => False
    end.
Proof.
  unfold Generator.generate_templates, Generator.generate_templates_body.
  intros Hrun.
  destruct (Generator.read_and_draw fuel f) as [tr1 [r | s]] eqn:Hread.
  - right. destruct (read_and_draw_request _ _ Hread) as [-> _].
    unfold gbind in Hrun.
    destruct (Generator.export fuel f e r) as [tr2 out] eqn:Hex.
    exists r, tr2, out. split; [reflexivity | ]. split; [exact Hex | ].
    cbn in Hrun.
    destruct out as [[] | [ex | | ]]; try discriminate Hrun;
      injection Hrun as <-; reflexivity.
  - left. cbn in Hrun.
    destruct (read_and_draw_outcome _ _ Hread)
      as [[-> Hs] | (title & m & -> & Hs)].
    + destruct s as [ex | | ]; try discriminate Hrun;
        [ | contradiction Hs; reflexivity].
      injection Hrun as <-. cbn.
      split; [ | lia]. destruct (is_ValueError ex); repeat constructor.
    + injection Hs as ->. injection Hrun as <-. cbn.
      split; [repeat constructor | lia].
Qed.


Lemma is_Save_not_ShowInfo (tr : list (event F)) (title : string)
    (lines : list string) :
  Forall is_Save tr -> ~ In (ShowInfo title lines) tr.
Proof.
  intros Hall Hin. rewrite Forall_forall in Hall. exact (Hall _ Hin).
Qed.

Lemma written_paths_app (a b : list (event F)) :
  written_paths (a ++ b) = written_paths a ++ written_paths b.
Proof. apply flat_map_app. Qed.

Lemma error_box_is_ShowError (ex : exn) : is_ShowError (error_box (F := F) ex).
Proof. unfold error_box. destruct (is_ValueError ex); exact I. Qed.

End GeneratorRuns.


(** X14.  In any arithmetic, when the save dialog of the combined
    generator is cancelled, a run that returns has written nothing and has
    shown at most one error box. *)
Theorem generator_writes_nothing_when_cancelled
    {F : Type} {num : PyNum F} (fuel : nat) (f : Generator.form)
    (e : Generator.env) (tr : list (event F)) :
  Generator.asksaveasfilename e = "" ->
  Generator.generate_templates fuel f e = Some tr ->
  Forall is_ShowError tr /\ (List.length tr <= 1)%nat.
Proof.
  intros Hpath Hrun.
  destruct (generate_templates_trace _ _ _ Hrun)
    as [H | (r & tr2 & out & Hread & Hex & Htr)]; [exact H | ].
  pose proof (export_outcome _ _ _ _ Hex) as Hout.
  destruct out as [[] | [ex | | ]].
  - destruct Hout as (Hp & _). contradiction.
  - destruct Hout as (Hp & _). contradiction.
  - destruct Hout as [-> _]. subst tr. split; [constructor | simpl; lia].
  - contradiction Htr.
Qed.

(** X15.  In any arithmetic, a run of the combined generator that shows
    a summary has written the master image and then exactly the selected
    formats among PDF, SVG and DOCX, in this order, each at [base] with its
    extension; the summary is the last thing shown, is titled "Templates
    generated", and lists the selected formats; and a Word document is
    among them only when [python-docx] is installed. *)
Theorem generator_summary_lists_what_was_written
    {F : Type} {num : PyNum F} (fuel : nat) (f : Generator.form)
    (e : Generator.env) (tr : list (event F)) (title : string)
    (lines : list string) :
  Generator.generate_templates fuel f e = Some tr ->
  In (ShowInfo title lines) tr ->
  title = "Templates generated" /\
  lines = summary f (base_of e) /\
  written_paths tr
  = String.append (base_of e) ".png"
    :: map snd (optional_outputs f (base_of e)) /\
  (exists saves : list (event F),
     tr = saves ++ [ShowInfo title lines] /\ Forall is_Save saves) /\
  (Generator.var_out_docx f = true -> Generator.docx_installed e = true).
Proof.
  intros Hrun Hin.
  destruct (generate_templates_trace _ _ _ Hrun)
    as [[Hall _] | (r & tr2 & out & Hread & Hex & Htr)].
  { exfalso. rewrite Forall_forall in Hall. exact (Hall _ Hin). }
  pose proof (export_outcome _ _ _ _ Hex) as Hout.
  destruct out as [[] | [ex | | ]].
  - destruct Hout as (_ & Hdocx & rest & -> & Hsaves & Hpaths). subst tr.
    destruct Hin as [Hin | Hin]; [discriminate Hin | ].
    apply in_app_or in Hin. destruct Hin as [Hin | Hin].
    { exfalso. exact (is_Save_not_ShowInfo _ _ Hsaves Hin). }
    destruct Hin as [Hin | []]. injection Hin as <- <-.
    split; [reflexivity | ]. split; [reflexivity | ].
    split.
    { cbn [written_paths flat_map app]. f_equal.
      fold (written_paths (rest ++ [ShowInfo (F := F) "Templates generated"
                                      (summary f (base_of e))])).
      rewrite written_paths_app, Hpaths. cbn. apply app_nil_r. }
    split; [ | exact Hdocx].
    exists (Save (String.append (base_of e) ".png") (PNG (Generator.req_img r))
            :: rest).
    split; [reflexivity | ]. constructor; [exact I | exact Hsaves].
  - exfalso. destruct Hout as (_ & _ & rest & -> & Hsaves & _). subst tr.
    apply in_app_or in Hin. destruct Hin as [Hin | Hin].
    + destruct Hin as [Hin | Hin]; [discriminate Hin | ].
      exact (is_Save_not_ShowInfo _ _ Hsaves Hin).
    + destruct Hin as [Hin | []].
      pose proof (error_box_is_ShowError (F := F) ex) as Hbox.
      rewrite Hin in Hbox. exact Hbox.
  - destruct Hout as [-> _]. subst tr. contradiction Hin.
  - contradiction Htr.
Qed.

(** X16.  In any arithmetic, when a Word document is asked for and
    [python-docx] is not installed, a run of the combined generator that
    returns shows no summary and writes no Word document; yet if it got as
    far as writing, the master image and the files written before the
    failure are left behind, and the run ends with the error box of the
    exception: that of the missing package, unless the vector document was
    selected and failed first. *)
Theorem generator_without_docx_leaves_files_behind
    {F : Type} {num : PyNum F} (fuel : nat) (f : Generator.form)
    (e : Generator.env) (tr : list (event F)) :
  Generator.var_out_docx f = true -> Generator.docx_installed e = false ->
  Generator.generate_templates fuel f e = Some tr ->
  (forall (title : string) (lines : list string),
     ~ In (ShowInfo title lines) tr) /\
  (forall (p : string) (d : list (docx_item F)), ~ In (Save p (DOCX d)) tr) /\
  (forall (p : string) (c : file_content F),
     In (Save p c) tr ->
     exists (img : image F) (rest : list (event F)) (ex : exn),
       tr = Save (String.append (base_of e) ".png") (PNG img)
            :: rest ++ [error_box ex] /\
       Forall is_Save rest /\
       (Generator.var_out_svg f = false -> ex = docx_missing)).
Proof.
  intros Hdocx Hmissing Hrun.
  destruct (generate_templates_trace _ _ _ Hrun)
    as [[Hall _] | (r & tr2 & out & Hread & Hex & Htr)].
  { rewrite Forall_forall in Hall. repeat split.
    - intros title lines Hin. exact (Hall _ Hin).
    - intros p d Hin. exact (Hall _ Hin).
    - intros p c Hin. destruct (Hall _ Hin). }
  pose proof (export_outcome _ _ _ _ Hex) as Hout.
  destruct out as [[] | [ex | | ]].
  - destruct Hout as (_ & Hinst & _). specialize (Hinst Hdocx). congruence.
  - destruct Hout as (_ & Hwhy & rest & -> & Hsaves & Hnodocx). subst tr.
    repeat split.
    + intros title lines Hin. apply in_app_or in Hin.
      destruct Hin as [Hin | Hin].
      * destruct Hin as [Hin | Hin]; [discriminate Hin | ].
        exact (is_Save_not_ShowInfo _ _ Hsaves Hin).
      * destruct Hin as [Hin | []].
        pose proof (error_box_is_ShowError (F := F) ex) as Hbox.
        rewrite Hin in Hbox. exact Hbox.
    + intros p d Hin. apply in_app_or in Hin. destruct Hin as [Hin | Hin].
      * exact (Hnodocx _ _ Hin).
      * destruct Hin as [Hin | []].
        pose proof (error_box_is_ShowError (F := F) ex) as Hbox.
        rewrite Hin in Hbox. exact Hbox.
    + intros p c _. exists (Generator.req_img r), rest, ex.
      split; [reflexivity | ]. split; [exact Hsaves | ].
      intros Hsvg. destruct Hwhy as [Hwhy | (_ & _ & Hwhy)]; [congruence | ].
      injection Hwhy as ->. reflexivity.
  - destruct Hout as [-> _]. subst tr. repeat split; intros ? ? Hin;
      contradiction Hin.
  - contradiction Htr.
Qed.


Lemma generator_writes_nothing_when_cancelled_witness :
  Forall (is_ShowError (F := F64.float)) [] /\ (List.length (A := event F64.float) [] <= 1)%nat.
Proof.
  apply (@generator_writes_nothing_when_cancelled F64.float F64.num 30
           (generator_box_form "10") cancelled_env []).
  - reflexivity.
  - vm_compute. reflexivity.
Defined.

Lemma generator_summary_lists_what_was_written_witness :
  written_paths svg_only_run = ["template.png"; "template.svg"] /\
  exists saves : list (event F64.float),
    svg_only_run
    = saves ++ [ShowInfo "Templates generated"
                  ["Generated:"; "SVG (LightBurn): template.svg"]] /\
    Forall is_Save saves.
Proof.
  destruct (@generator_summary_lists_what_was_written F64.float F64.num 30
              svg_only_form generator_env svg_only_run "Templates generated"
              ["Generated:"; "SVG (LightBurn): template.svg"])
    as (_ & _ & Hpaths & Hlast & _).
  - vm_compute. reflexivity.
  - vm_compute. right. right. left. reflexivity.
  - split; [exact Hpaths | exact Hlast].
Defined.

Lemma generator_without_docx_leaves_files_behind_witness :
  exists tr : list (event F64.float),
    Generator.generate_templates (num := F64.num) 30 docx_form generator_env
    = Some tr /\
    (forall (title : string) (lines : list string),
       ~ In (ShowInfo title lines) tr) /\
    exists (img : image F64.float) (rest : list (event F64.float)),
      tr = Save "template.png" (PNG img)
           :: rest ++ [ShowError "Error" (ErrorOccurred docx_missing)].
Proof.
  assert (H : exists (tr : list (event F64.float)) (c : file_content F64.float),
            Generator.generate_templates (num := F64.num) 30 docx_form
              generator_env = Some tr /\
            In (Save "template.png" c) tr).
  { eexists. eexists. split; [vm_compute; reflexivity | left; reflexivity]. }
  destruct H as (tr & c & Hrun & Hin).
  destruct (@generator_without_docx_leaves_files_behind F64.float F64.num 30
              docx_form generator_env tr eq_refl eq_refl Hrun)
    as (Hno & _ & Hleft).
  destruct (Hleft _ _ Hin) as (img & rest & ex & Htr & _ & Hex).
  rewrite (Hex eq_refl) in Htr.
  exists tr. split; [exact Hrun | ]. split; [exact Hno | ].
  exists img, rest. exact Htr.
Defined.

(** ** The fields of the joint that is not selected *)

(** X18.  In any arithmetic, the handler of the combined generator reads
    of the four joint fields only those that [update_field_states] leaves
    enabled for the selected joint: two forms that agree on the joint
    type, on the board fields, on the output formats and on the enabled
    joint fields give the same run, whatever the disabled fields hold. *)
Theorem disabled_fields_are_never_read
    {F : Type} {num : PyNum F} (fuel : nat) (f f' : Generator.form)
    (e : Generator.env) :
  Generator.joint_type_var f = Generator.joint_type_var f' ->
  Generator.entry_board_width f = Generator.entry_board_width f' ->
  Generator.entry_height f = Generator.entry_height f' ->
  Generator.entry_dpi f = Generator.entry_dpi f' ->
  Generator.var_out_png f = Generator.var_out_png f' ->
  Generator.var_out_svg f = Generator.var_out_svg f' ->
  Generator.var_out_pdf f = Generator.var_out_pdf f' ->
  Generator.var_out_docx f = Generator.var_out_docx f' ->
  (Generator.state_finger_width (Generator.update_field_states f)
   = Generator.normal ->
   Generator.entry_finger_width f = Generator.entry_finger_width f') ->
  (Generator.state_start_with_finger (Generator.update_field_states f)
   = Generator.normal ->
   Generator.var_start_with_finger f = Generator.var_start_with_finger f') ->
  (Generator.state_tails (Generator.update_field_states f)
   = Generator.normal ->
   Generator.entry_tails f = Generator.entry_tails f') ->
  (Generator.state_ratio (Generator.update_field_states f)
   = Generator.normal ->
   Generator.entry_ratio f = Generator.entry_ratio f') ->
  Generator.generate_templates (F := F) fuel f e
  = Generator.generate_templates fuel f' e.
Proof.
  intros Hjt Hbw Hbh Hdpi Hpng Hsvg Hpdf Hdocx Hfw Hst Htails Hratio.
  unfold Generator.update_field_states in *. cbv zeta in *.
  unfold Generator.generate_templates, Generator.generate_templates_body,
    Generator.read_and_draw, Generator.export.
  rewrite <- Hjt, <- Hbw, <- Hbh, <- Hdpi, <- Hpng, <- Hsvg, <- Hpdf, <- Hdocx.
  destruct (String.eqb (Generator.joint_type_var f) "box");
    cbn [Generator.state_finger_width Generator.state_start_with_finger
         Generator.state_tails Generator.state_ratio] in *.
  - rewrite <- (Hfw eq_refl), <- (Hst eq_refl). reflexivity.
  - rewrite <- (Htails eq_refl), <- (Hratio eq_refl). reflexivity.
Qed.

Lemma disabled_fields_are_never_read_witness :
  Generator.generate_templates (F := F64.float) 30 svg_only_form generator_env
  = Generator.generate_templates 30
      {| Generator.joint_type_var := "box";
         Generator.entry_board_width := "100";
         Generator.entry_height := "40";
         Generator.entry_dpi := "300";
         Generator.entry_finger_width := "10";
         Generator.var_start_with_finger := true;
         Generator.entry_tails := "no number";
         Generator.entry_ratio := "0:0";
         Generator.var_out_png := false;
         Generator.var_out_svg := true;
         Generator.var_out_pdf := false;
         Generator.var_out_docx := false |} generator_env.
Proof.
  apply (@disabled_fields_are_never_read F64.float F64.num 30 svg_only_form);
    try reflexivity; intros H; discriminate H.
Defined.

(** ** The two ratio parsers *)


(** ** The tails of the vector document *)



Section ExactSvgTails.
Local Open Scope Q_scope.


End ExactSvgTails.



(** ** Not a number *)

(** X12.  In binary64, a board width that parses to NaN passes both checks
    of [Box-Joint.py], since no comparison with NaN holds: with the other
    fields valid the save dialog is shown, and only then the conversion of
    the width to pixels fails, which is reported as "Please enter valid
    numbers."; nothing is written. *)
Theorem nan_board_width_passes_the_checks
    (fuel : nat) (f : BoxJoint.form) (e : BoxJoint.env)
    (finger_width_mm board_height_mm mm_to_px : F64.float)
    (dpi margin_px : Z) :
  py_float (F := F64.float) (BoxJoint.entry_board_width f) = Ok S754_nan ->
  py_float (BoxJoint.entry_finger_width f) = Ok finger_width_mm ->
  py_float (BoxJoint.entry_board_height f) = Ok board_height_mm ->
  py_int (BoxJoint.entry_dpi f) = Ok dpi ->
  fleb finger_width_mm (lit 0 0) = false ->
  fleb board_height_mm (lit 0 0) = false ->
  0 < dpi ->
  BoxJoint.asksaveasfilename e <> "" ->
  mm_to_px_of dpi = Ok mm_to_px ->
  to_px (lit 5 0) mm_to_px = Ok margin_px ->
  BoxJoint.generate_template (num := F64.num) fuel f e
  = Some [ShowError "Invalid input" (Msg "Please enter valid numbers.")].
Proof.
  intros Hbw Hfw Hbh Hdpi Hf0 Hh0 Hd0 Hpath Hc Hm.
  unfold BoxJoint.generate_template, BoxJoint.generate_template_body.
  rewrite Hbw, gbind_ok, Hfw, gbind_ok, Hbh, gbind_ok, Hdpi, gbind_ok.
  cbv zeta. rewrite Hf0, Hh0.
  replace (dpi <=? 0) with false by (symmetry; apply Z.leb_gt; exact Hd0).
  change (fleb (PyNum := F64.num) S754_nan (lit 0 0)) with false.
  cbn [orb].
  change (fltb (PyNum := F64.num) S754_nan finger_width_mm) with false.
  cbv iota.
  apply String.eqb_neq in Hpath. rewrite Hpath.
  assert (Hd : BoxJoint.drawing (num := F64.num) fuel S754_nan board_height_mm
                 finger_width_mm dpi (BoxJoint.var_start_with_finger f)
               = Some (Err ValueError_nan_to_int)).
  { unfold BoxJoint.drawing.
    rewrite Hc, run_bind_ok, Hm, run_bind_ok.
    unfold to_px at 1. cbn [fmul F64.num].
    replace (SFmul F64.prec F64.emax S754_nan mm_to_px) with S754_nan
      by (destruct mm_to_px; reflexivity).
    reflexivity. }
  rewrite Hd. reflexivity.
Qed.

Lemma nan_board_width_passes_the_checks_witness :
  BoxJoint.generate_template (num := F64.num) 0
    {| BoxJoint.entry_board_width := "nan";
       BoxJoint.entry_finger_width := "10";
       BoxJoint.entry_board_height := "40";
       BoxJoint.entry_dpi := "300";
       BoxJoint.var_start_with_finger := true |} box_env
  = Some [ShowError "Invalid input" (Msg "Please enter valid numbers.")].
Proof.
  assert (Hc : exists c : F64.float, mm_to_px_of (num := F64.num) 300 = Ok c)
    by (eexists; vm_compute; reflexivity).
  destruct Hc as [c Hc].
  assert (Hc' := Hc). vm_compute in Hc'. injection Hc' as Hc'.
  apply (@nan_board_width_passes_the_checks 0%nat _ box_env (lit 10 0)
           (lit 40 0) c 300 59);
    try (vm_compute; reflexivity); try lia; try exact Hc.
  - discriminate.
  - rewrite <- Hc'. vm_compute. reflexivity.
Defined.
